(** * Change classification and deprecation checks of definitions-parser

    A shallow embedding of [packages/definitions-parser/src/git.ts]:
    [gitChanges], [getAffectedPackagesFromDiff], [checkNotNeededPackage] and
    [getNotNeededPackages], followed by the properties the specification
    states about them.

    - JavaScript [Map] and [Set] objects are insertion-ordered; they are
      modelled as association lists and duplicate-free lists that keep the
      position of the first insertion.
    - [async] functions are modelled in a small writer/exception monad: a
      computation yields the list of collaborator calls it made, in order,
      and either a returned value or a thrown error (a rejected promise).
    - Code of other modules ([./packages], [./get-affected-packages],
      [pacote], [semver]) is taken as a parameter of the functions that
      call it; the theorems hold for every such parameter.  The path grammar
      of [./packages] is also given as a definition that follows the
      specification, so that the functions run on concrete diffs. *)

From Stdlib Require Import String Ascii List Bool Arith Lia.
From Stdlib Require Import DecimalString.
From Stdlib Require Import ZArith Permutation Sorted.
Import ListNotations.

Local Open Scope string_scope.
Local Open Scope list_scope.

(* ================================================================= *)
(** ** JavaScript runtime notions used by the source *)

Module Js.

(** A thrown value.  The source only ever inspects [reason.code]. *)
Record JsError : Type := mkError {
    code : option string;
    message : string
  }.

(** [new Error(msg)]: an error object without a [code] property. *)
Definition Error (msg : string) : JsError :=
  {| code := None; message := msg |}.

Inductive outcome (A : Type) : Type :=
  | Returned (a : A)
  | Thrown (e : JsError).
Arguments Returned {A} a.
Arguments Thrown {A} e.

(** *** Insertion-ordered [Map<string, V>] *)

Definition JsMap (V : Type) : Type := list (string * V).

(** [m.set(k, v)]: an existing key keeps its position and gets the new
    value, a new key is appended. *)
Fixpoint map_set {V : Type} (k : string) (v : V) (m : JsMap V) : JsMap V :=
  match m with
  | [] => [(k, v)]
  | (k', v') :: m' =>
      if String.eqb k k' then (k, v) :: m' else (k', v') :: map_set k v m'
  end.

Fixpoint map_get {V : Type} (k : string) (m : JsMap V) : option V :=
  match m with
  | [] => None
  | (k', v') :: m' => if String.eqb k k' then Some v' else map_get k m'
  end.

Definition map_keys {V : Type} (m : JsMap V) : list string := map fst m.

(** A sequence of [set] calls on one map. *)
Definition apply_writes {V : Type} (ws : list (string * V)) (m : JsMap V)
  : JsMap V :=
  fold_left (fun m' kv => map_set (fst kv) (snd kv) m') ws m.

(** [Array.from(m.values())] *)
Definition map_values {V : Type} (m : JsMap V) : list V := map snd m.

(** *** Insertion-ordered [Set<string>] *)

Definition set_add (x : string) (s : list string) : list string :=
  if existsb (String.eqb x) s then s else s ++ [x].

(** [new Set(xs)] *)
Definition set_from (xs : list string) : list string :=
  fold_left (fun s x => set_add x s) xs [].

(** *** Characters that cannot be written inside a literal *)

Definition nl : string := String (ascii_of_nat 10) EmptyString.
Definition dquote : string := String (ascii_of_nat 34) EmptyString.
Definition backslash : ascii := ascii_of_nat 92.

End Js.

(* ================================================================= *)
(** ** Types of [./packages] *)

Module Packages.

(** [DirectoryParsedTypingVersion]: [{ major: number; minor?: number }] *)
Record DirectoryParsedTypingVersion : Type := mkVersion {
    major : nat;
    minor : option nat
  }.

(** [DirectoryParsedTypingVersion | "*"] *)
Inductive VersionOrStar : Type :=
  | Star
  | Exact (v : DirectoryParsedTypingVersion).

(** [PackageId].  [typesDirectoryName] may be [undefined] for the code of
    [getNotNeededPackages], which guards it with [assertDefined]. *)
Record PackageId : Type := mkPackageId {
    typesDirectoryName : option string;
    version : VersionOrStar
  }.

(** [NotNeededPackage]: a deprecation record. *)
Module NotNeededPackage.
Record t : Type := mk {
    name : string;
    libraryName : string;
    version : string
  }.
End NotNeededPackage.

(** The part of a registry manifest that the source reads. *)
Module Manifest.
Record t : Type := mk {
    version : string
  }.
End Manifest.

(** The part of [AllPackages] that the source queries: lookups in the
    read-only package index, which answer without failing. *)
Record AllPackages : Type := mkAllPackages {
    hasTypingFor : PackageId -> bool;
    getNotNeededPackage : string -> option NotNeededPackage.t
  }.

(** [PreparePackagesResult] of [./get-affected-packages] *)
Record PreparePackagesResult : Type := mkPrepare {
    packageNames : list string;
    dependents : list string
  }.

(** A template literal renders [undefined] as the word itself. *)
Definition render (o : option string) : string :=
  match o with Some s => s | None => "undefined" end.

(** *** The path grammar *)

Fixpoint split (sep : ascii) (s : string) : list string :=
  match s with
  | EmptyString => [EmptyString]
  | String c s' =>
      if Ascii.eqb c sep then EmptyString :: split sep s'
      else match split sep s' with
           | [] => [String c EmptyString]
           | w :: ws => String c w :: ws
           end
  end.

Definition parse_nat (s : string) : option nat :=
  match s with
  | EmptyString => None
  | _ => option_map Nat.of_uint (NilEmpty.uint_of_string s)
  end.

Definition show_nat (n : nat) : string :=
  NilEmpty.string_of_uint (Nat.to_uint n).

(** Modelled from the spec: the optional version segment of the path
    grammar, [v<major>.<minor>], or [v<major>] as in [types/foo/v2]. *)
Definition parseVersionFromDirectoryName (seg : string)
  : option DirectoryParsedTypingVersion :=
  match seg with
  | String "v" rest =>
      match split "." rest with
      | [ma] => option_map (fun a => mkVersion a None) (parse_nat ma)
      | [ma; mi] =>
          match parse_nat ma, parse_nat mi with
          | Some a, Some i => Some (mkVersion a (Some i))
          | _, _ => None
          end
      | _ => None
      end
  | _ => None
  end.

(** Modelled from the spec: [getDependencyFromFile] of [./packages] is not
    among the sources.  The specification gives the path grammar
    [<root>/<directoryName>[/v<major>.<minor>]/...] with root [types], says
    that mapping fails when the path does not match it, and maps
    [types/foo/v2/index.d.ts] to [foo] at version 2 and
    [types/foo/index.d.ts] to [foo] at the wildcard version. *)
Definition getDependencyFromFile (file : string) : option PackageId :=
  match split "/" file with
  | root :: dir :: seg :: more =>
      if String.eqb root "types" then
        match more, parseVersionFromDirectoryName seg with
        | _ :: _, Some v => Some (mkPackageId (Some dir) (Exact v))
        | _, _ => Some (mkPackageId (Some dir) Star)
        end
      else None
  | _ => None
  end.

(** Modelled from the spec: [formatTypingVersion] of [./packages] is not
    among the sources.  The specification writes the key of an exact
    version as [<directoryName>/v<major.minor>]; a version without a minor
    part prints its major part only. *)
Definition formatTypingVersion (v : DirectoryParsedTypingVersion) : string :=
  match minor v with
  | Some i => (show_nat (major v) ++ "." ++ show_nat i)%string
  | None => show_nat (major v)
  end.

End Packages.

(* ================================================================= *)
(** ** [git.ts]: classification of a diff *)

Module Git.
Import Js Packages.

(** [GitDiff]: status ["A" | "D" | "M"] with a file, or status ["R"] with
    the destination [file] and the [source] it was moved from. *)
Inductive ADM : Type := A | D | M.

Inductive GitDiff : Type :=
  | FileChange (st : ADM) (file : string)
  | Rename (file : string) (source : string).

Definition status (d : GitDiff) : string :=
  match d with
  | FileChange A _ => "A"
  | FileChange D _ => "D"
  | FileChange M _ => "M"
  | Rename _ _ => "R"
  end.

Definition file (d : GitDiff) : string :=
  match d with
  | FileChange _ f => f
  | Rename f _ => f
  end.

(** The anchored attempt of the regular expression [types[\\/]] at the
    start of [s]. *)
Definition types_sep_here (s : string) : bool :=
  match s with
  | String "t" (String "y" (String "p" (String "e" (String "s" (String c _))))) =>
      Ascii.eqb c "/" || Ascii.eqb c backslash
  | _ => false
  end.

(** [/types[\\/]/.test(s)]: the expression is tried at every position. *)
Fixpoint types_sep_test (s : string) : bool :=
  types_sep_here s ||
  match s with
  | EmptyString => false
  | String _ s' => types_sep_test s'
  end.

(** The three accumulators of the loop of [gitChanges]. *)
Record Acc : Type := mkAcc {
    deletions : JsMap PackageId;
    additions : JsMap PackageId;
    errors : list string
  }.

Definition set_deletion (k : string) (p : PackageId) (s : Acc) : Acc :=
  {| deletions := map_set k p (deletions s);
     additions := additions s;
     errors := errors s |}.

Definition set_addition (k : string) (p : PackageId) (s : Acc) : Acc :=
  {| deletions := deletions s;
     additions := map_set k p (additions s);
     errors := errors s |}.

Definition push_error (e : string) (s : Acc) : Acc :=
  {| deletions := deletions s;
     additions := additions s;
     errors := errors s ++ [e] |}.

Definition empty_acc : Acc :=
  {| deletions := []; additions := []; errors := [] |}.

(** The message pushed at lines 90-97. *)
Definition unexpected_file (diff : GitDiff) : string :=
  let status :=
    if String.eqb (status diff) "A" || String.eqb (status diff) "R"
    then "add" else "delete" in
  ("Unexpected file "
     ++ (if String.eqb status "add" then "added" else "deleted")
     ++ ": " ++ file diff ++ nl ++ "You should "
     ++ (if String.eqb status "add"
         then "only add files that are part of packages."
         else "only delete files that are a part of removed packages."))%string.

(** Result of [gitChanges]:
    [{ errors } | { deletions; additions }]. *)
Inductive GitChanges : Type :=
  | Errors (errors : list string)
  | Changes (deletions : list PackageId) (additions : list PackageId).

Section GitChanges.
Variable getDependencyFromFile : string -> option PackageId.
Variable formatTypingVersion : DirectoryParsedTypingVersion -> string.

(** The key built at line 77 and again at lines 83-85. *)
Definition key (dep : PackageId) : string :=
  (render (typesDirectoryName dep) ++ "/v"
     ++ match version dep with
        | Star => "*"
        | Exact v => formatTypingVersion v
        end)%string.

(** One iteration of the loop of lines 72-99. *)
Definition gitChanges_step (s : Acc) (diff : GitDiff) : Acc :=
  if negb (types_sep_test (file diff)) then s
  else if String.eqb (status diff) "M" then s
  else
    match getDependencyFromFile (file diff) with
    | Some dep =>
        let s1 :=
          if String.eqb (status diff) "D"
          then set_deletion (key dep) dep s
          else set_addition (key dep) dep s in
        match diff with
        | Rename _ source =>
            match getDependencyFromFile source with
            | Some srcDep => set_deletion (key srcDep) srcDep s1
            | None => s1
            end
        | FileChange _ _ => s1
        end
    | None => push_error (unexpected_file diff) s
    end.

Definition gitChanges_loop (diffs : list GitDiff) : Acc :=
  fold_left gitChanges_step diffs empty_acc.

Definition gitChanges (diffs : list GitDiff) : GitChanges :=
  let s := gitChanges_loop diffs in
  match errors s with
  | _ :: _ => Errors (errors s)
  | [] => Changes (map_values (deletions s)) (map_values (additions s))
  end.

End GitChanges.

(* ----------------------------------------------------------------- *)
(** *** Asynchronous code: calls made, then a value or a rejection *)

(** The collaborator calls and function entries that a run records. *)
Inductive Call : Type :=
| Call_gitDiff (definitelyTypedPath : string)
| Call_getNotNeededPackages (deletions : list PackageId)
| Call_checkNotNeededPackage (unneeded : NotNeededPackage.t)
| Call_manifest (spec : string)
| Call_getAffectedPackages (deletions additions : list PackageId).

Definition Async (A : Type) : Type := (list Call * outcome A)%type.

Definition ret {A : Type} (a : A) : Async A := ([], Returned a).

Definition throw {A : Type} (e : JsError) : Async A := ([], Thrown e).

(** [await m] followed by the rest of the function body. *)
Definition bind {A B : Type} (m : Async A) (k : A -> Async B) : Async B :=
  match m with
  | (t, Returned a) => let (t', r) := k a in (t ++ t', r)
  | (t, Thrown e) => (t, Thrown e)
  end.

(** [m.catch(h)] *)
Definition catch {A : Type} (m : Async A) (h : JsError -> Async A) : Async A :=
  match m with
  | (t, Returned a) => (t, Returned a)
  | (t, Thrown e) => let (t', r) := h e in (t ++ t', r)
  end.

(** A recorded call whose result is [r]. *)
Definition invoke {A : Type} (c : Call) (r : outcome A) : Async A := ([c], r).

Notation "x <- m ;; k" := (bind m (fun x => k))
  (at level 61, m at next level, right associativity).

(** [reason.code === c] *)
Definition code_is (reason : JsError) (c : string) : bool :=
  match code reason with
  | Some c' => String.eqb c' c
  | None => false
  end.

(** Truthiness of [T | undefined] for an object type [T]. *)
Definition truthy {A : Type} (x : option A) : bool :=
  match x with Some _ => true | None => false end.

(** A value that is either a string or an object ([typeof x === "string"]). *)
Inductive StringOr (A : Type) : Type :=
| IsString (s : string)
| IsObject (a : A).
Arguments IsString {A} s.
Arguments IsObject {A} a.

(** A result that is either [{ errors }] or a value (["errors" in x]). *)
Inductive OrErrors (A : Type) : Type :=
| HasErrors (errors : list string)
| NoErrors (a : A).
Arguments HasErrors {A} errors.
Arguments NoErrors {A} a.

(** Modelled from the spec: [assertDefined] of [@definitelytyped/utils] is not
    among the sources.  The specification counts an unexpected internal
    invariant violation among the fatal errors that propagate uncaught: the
    assertion returns a defined argument and throws on [undefined]. *)
Definition assertDefined {A : Type} (x : option A) : outcome A :=
  match x with
  | Some a => Returned a
  | None => Thrown (Error "assertion failed")
  end.

(** [xs.map(f)] for an [f] that may throw: the first throw ends the map. *)
Fixpoint map_throwing {A B : Type} (f : A -> outcome B) (xs : list A)
  : outcome (list B) :=
  match xs with
  | [] => Returned []
  | x :: xs' =>
      match f x with
      | Thrown e => Thrown e
      | Returned b =>
          match map_throwing f xs' with
          | Thrown e => Thrown e
          | Returned bs => Returned (b :: bs)
          end
      end
  end.

(* ----------------------------------------------------------------- *)
(** *** The messages of the deprecation checks *)

(** Lines 144-146. *)
Definition no_npm_package (unneeded : NotNeededPackage.t) : string :=
  ("The entry for " ++ NotNeededPackage.name unneeded
     ++ " in notNeededPackages.json has" ++ nl
     ++ dquote ++ "libraryName" ++ dquote ++ ": " ++ dquote
     ++ NotNeededPackage.libraryName unneeded ++ dquote
     ++ ", but there is no npm package with this name." ++ nl
     ++ "Unneeded packages have to be replaced with a package on npm.")%string.

(** Line 148. *)
Definition version_not_on_npm (unneeded : NotNeededPackage.t) : string :=
  ("The specified version " ++ NotNeededPackage.version unneeded
     ++ " of " ++ NotNeededPackage.libraryName unneeded
     ++ " is not on npm.")%string.

(** Line 153. *)
Definition types_package_not_found (unneeded : NotNeededPackage.t) : string :=
  ("Unexpected error: @types package not found for "
     ++ NotNeededPackage.name unneeded)%string.

(** Lines 161-162. *)
Definition must_be_newer (unneeded : NotNeededPackage.t) (typings : Manifest.t)
  : string :=
  ("The specified version " ++ NotNeededPackage.version unneeded
     ++ " of " ++ NotNeededPackage.libraryName unneeded
     ++ " must be newer than the version" ++ nl
     ++ "it is supposed to replace, " ++ Manifest.version typings
     ++ " of " ++ NotNeededPackage.name unneeded ++ ".")%string.

(** Line 181. *)
Definition delete_all_files (p : string) : string :=
  ("Please delete all files in " ++ p
     ++ " when adding it to notNeededPackages.json.")%string.

(* ----------------------------------------------------------------- *)
(** *** [checkNotNeededPackage] (lines 138-164) *)

Section Registry.
Variable cacheDir : string.
(** [pacote.manifest(spec, { cache })], awaited. *)
Variable pacote_manifest : string -> string -> outcome Manifest.t.
(** [semver.gt] *)
Variable semver_gt : string -> string -> bool.

Definition manifest (spec : string) : Async Manifest.t :=
  invoke (Call_manifest spec) (pacote_manifest spec cacheDir).

Definition checkNotNeededPackage (unneeded : NotNeededPackage.t)
  : Async (list string) :=
  _ <- invoke (Call_checkNotNeededPackage unneeded) (Returned tt) ;;
  let errors : list string := [] in
  replacementPackage <-
    catch
      (m <- manifest (NotNeededPackage.libraryName unneeded ++ "@"
                        ++ NotNeededPackage.version unneeded)%string ;;
       ret (IsObject m))
      (fun reason =>
         if code_is reason "E404" then ret (IsString (no_npm_package unneeded))
         else if code_is reason "ETARGET"
              then ret (IsString (version_not_on_npm unneeded))
              else throw reason) ;;
  let errors :=
    match replacementPackage with
    | IsString s => errors ++ [s]
    | IsObject _ => errors
    end in
  typings <-
    catch
      (m <- manifest (NotNeededPackage.name unneeded) ;; ret (IsObject m))
      (fun reason =>
         if code_is reason "E404"
         then ret (IsString (types_package_not_found unneeded))
         else throw reason) ;;
  match typings with
  | IsString s => ret (errors ++ [s])
  | IsObject typings =>
      if negb (semver_gt (NotNeededPackage.version unneeded)
                 (Manifest.version typings))
      then ret (errors ++ [must_be_newer unneeded typings])
      else ret errors
  end.

End Registry.

(* ----------------------------------------------------------------- *)
(** *** [getNotNeededPackages] (lines 170-187) *)

(** The accumulators [notNeededs] and [errors] of the loop. *)
Definition getNotNeededPackages_step (allPackages : AllPackages)
  (acc : list NotNeededPackage.t * list string) (p : string)
  : list NotNeededPackage.t * list string :=
  let (notNeededs, errors) := acc in
  let hasTyping :=
    hasTypingFor allPackages
      {| typesDirectoryName := Some p; version := Star |} in
  let notNeeded := getNotNeededPackage allPackages p in
  if hasTyping && truthy notNeeded
  then (notNeededs, errors ++ [delete_all_files p])
  else
    match notNeeded with
    | Some n => (notNeededs ++ [n], errors)
    | None => (notNeededs, errors)
    end.

Definition getNotNeededPackages (allPackages : AllPackages)
  (deletions : list PackageId)
  : Async (OrErrors (list NotNeededPackage.t)) :=
  _ <- invoke (Call_getNotNeededPackages deletions) (Returned tt) ;;
  names <- ([], map_throwing (fun p => assertDefined (typesDirectoryName p))
                  deletions) ;;
  let deletedPackages := set_from names in
  let (notNeededs, errors) :=
    fold_left (getNotNeededPackages_step allPackages) deletedPackages ([], []) in
  ret (match errors with
       | _ :: _ => HasErrors errors
       | [] => NoErrors notNeededs
       end).

(* ----------------------------------------------------------------- *)
(** *** [getAffectedPackagesFromDiff] (lines 103-131) *)

Section Pipeline.
Variable getDependencyFromFile : string -> option PackageId.
Variable formatTypingVersion : DirectoryParsedTypingVersion -> string.
Variable cacheDir : string.
Variable pacote_manifest : string -> string -> outcome Manifest.t.
Variable semver_gt : string -> string -> bool.
(** [gitDiff(consoleLogger.info, definitelyTypedPath)], awaited: the diff
    source, which runs [git]. *)
Variable gitDiff : string -> outcome (list GitDiff).
(** [getAffectedPackages(allPackages, git, definitelyTypedPath)], awaited. *)
Variable getAffectedPackages :
  AllPackages -> list PackageId -> list PackageId -> string ->
  outcome (OrErrors PreparePackagesResult).

(** The loop of lines 117-119. *)
Fixpoint checkNotNeededPackages (deleteds : list NotNeededPackage.t)
  (errors : list string) : Async (list string) :=
  match deleteds with
  | [] => ret errors
  | deleted :: rest =>
      es <- checkNotNeededPackage cacheDir pacote_manifest semver_gt deleted ;;
      checkNotNeededPackages rest (errors ++ es)
  end.

(** Lines 113-120: the errors collected before the resolver is called. *)
Definition deprecationErrors (allPackages : AllPackages)
  (diffs : list GitDiff) (deletions : list PackageId) : Async (list string) :=
  let errors : list string := [] in
  if existsb (fun d => String.eqb (file d) "notNeededPackages.json") diffs
  then
    deleteds <- getNotNeededPackages allPackages deletions ;;
    match deleteds with
    | HasErrors es => ret (errors ++ es)
    | NoErrors ds => checkNotNeededPackages ds errors
    end
  else ret errors.

(** The two [console.log] lines before the final [return] write to the
    console only and are left out. *)
Definition getAffectedPackagesFromDiff (allPackages : AllPackages)
  (definitelyTypedPath : string)
  : Async (OrErrors PreparePackagesResult) :=
  diffs <- invoke (Call_gitDiff definitelyTypedPath)
             (gitDiff definitelyTypedPath) ;;
  match gitChanges getDependencyFromFile formatTypingVersion diffs with
  | Errors es => ret (HasErrors es)
  | Changes deletions additions =>
      errors <- deprecationErrors allPackages diffs deletions ;;
      affected <- invoke (Call_getAffectedPackages deletions additions)
                    (getAffectedPackages allPackages deletions additions
                       definitelyTypedPath) ;;
      match errors with
      | _ :: _ => ret (HasErrors errors)
      | [] =>
          match affected with
          | HasErrors _ => throw (Error "unexpected error array")
          | NoErrors a => ret (NoErrors a)
          end
      end
  end.

End Pipeline.

End Git.

(* ================================================================= *)
(** ** [semver.gt] on plain versions *)

Module Semver.
Import Packages.

(** [MAJOR.MINOR.PATCH] with decimal parts. *)
Definition parse (v : string) : option (nat * nat * nat) :=
  match split "." v with
  | [a; b; c] =>
      match parse_nat a, parse_nat b, parse_nat c with
      | Some x, Some y, Some z => Some (x, y, z)
      | _, _, _ => None
      end
  | _ => None
  end.

(** The ordering of [semver] on versions without pre-release tags: major,
    then minor, then patch. *)
Definition gt (a b : string) : bool :=
  match parse a, parse b with
  | Some (x, y, z), Some (x', y', z') =>
      Nat.ltb x' x
      || (Nat.eqb x' x && (Nat.ltb y' y || (Nat.eqb y' y && Nat.ltb z' z)))
  | _, _ => false
  end.

End Semver.

(* ================================================================= *)
(** ** Notions the specification uses to state its properties *)

Module Spec.
Import Js Packages Git.

(** The message [msg] cites [v]: [v] occurs in it. *)
Definition cites (msg v : string) : Prop :=
  exists pre post : string, msg = (pre ++ v ++ post)%string.

(** No key is in both maps. *)
Definition keys_disjoint (s : Acc) : Prop :=
  forall k : string,
    ~ (In k (map_keys (deletions s)) /\ In k (map_keys (additions s))).

(** The value of the last write to key [k] in a sequence of writes. *)
Fixpoint last_write {V : Type} (ws : list (string * V)) (k : string)
  : option V :=
  match ws with
  | [] => None
  | (k', v) :: ws' =>
      match last_write ws' k with
      | Some v' => Some v'
      | None => if String.eqb k k' then Some v else None
      end
  end.

Section Classifier.
Variable getDependencyFromFile : string -> option PackageId.
Variable formatTypingVersion : DirectoryParsedTypingVersion -> string.

(** An event that reaches the path grammar: its file passes the test of
    line 73 and it is not a modification. *)
Definition classified (diff : GitDiff) : bool :=
  types_sep_test (file diff) && negb (String.eqb (status diff) "M").

(** A classified event whose path the grammar rejects. *)
Definition rejected (diff : GitDiff) : bool :=
  classified diff && negb (truthy (getDependencyFromFile (file diff))).

(** The identity an event records as deleted, with its key. *)
Definition deletion_writes (diff : GitDiff) : list (string * PackageId) :=
  if classified diff then
    match getDependencyFromFile (file diff), diff with
    | Some dep, FileChange D _ => [(key formatTypingVersion dep, dep)]
    | Some _, Rename _ source =>
        match getDependencyFromFile source with
        | Some srcDep => [(key formatTypingVersion srcDep, srcDep)]
        | None => []
        end
    | _, _ => []
    end
  else [].

(** The identity an event records as added, with its key. *)
Definition addition_writes (diff : GitDiff) : list (string * PackageId) :=
  if classified diff then
    match getDependencyFromFile (file diff), diff with
    | Some dep, FileChange A _ => [(key formatTypingVersion dep, dep)]
    | Some dep, Rename _ _ => [(key formatTypingVersion dep, dep)]
    | _, _ => []
    end
  else [].

(** Structural rejection as the specification words it: every event whose
    path fails the grammar yields one error, in order, and the result
    carries the errors only. *)
Definition structural_rejection (diffs : list GitDiff) : Prop :=
  let failing :=
    filter (fun d => negb (truthy (getDependencyFromFile (file d)))) diffs in
  failing <> [] ->
  gitChanges getDependencyFromFile formatTypingVersion diffs
  = Errors (map unexpected_file failing).

End Classifier.

(** The three cases of the consistency check, in the specification's
    words: still has declarations and is listed as deprecated; listed as
    deprecated with no declarations left; neither. *)
Inductive Verdict : Type :=
| DeleteAllFilesFirst
| Accepted (notNeeded : NotNeededPackage.t)
| Skipped.

Definition verdict (allPackages : AllPackages) (p : string) : Verdict :=
  match getNotNeededPackage allPackages p with
  | Some n =>
      if hasTypingFor allPackages
           {| typesDirectoryName := Some p; version := Star |}
      then DeleteAllFilesFirst
      else Accepted n
  | None => Skipped
  end.

Definition verdict_error (allPackages : AllPackages) (p : string)
  : list string :=
  match verdict allPackages p with
  | DeleteAllFilesFirst => [delete_all_files p]
  | _ => []
  end.

Definition verdict_accepted (allPackages : AllPackages) (p : string)
  : list NotNeededPackage.t :=
  match verdict allPackages p with
  | Accepted n => [n]
  | _ => []
  end.

(** A registry error that the handler of the replacement lookup rethrows. *)
Definition rethrown_by_replacement_lookup (reason : JsError) : bool :=
  negb (code_is reason "E404") && negb (code_is reason "ETARGET").

(** A registry error that the handler of the typings lookup rethrows. *)
Definition rethrown_by_typings_lookup (reason : JsError) : bool :=
  negb (code_is reason "E404").

(** A lookup that does not end the run: it resolved, or its handler turns
    the error into a message. *)
Definition survives {A : Type} (rethrown : JsError -> bool) (r : outcome A)
  : Prop :=
  match r with
  | Returned _ => True
  | Thrown reason => rethrown reason = false
  end.

(** The calls that belong to the deprecation checks. *)
Definition is_validator_call (c : Call) : bool :=
  match c with
  | Call_getNotNeededPackages _ => true
  | Call_checkNotNeededPackage _ => true
  | Call_manifest _ => true
  | Call_gitDiff _ => false
  | Call_getAffectedPackages _ _ => false
  end.

End Spec.

(* ================================================================= *)
(** ** A concrete run: the deprecation of [bar] *)

Module Scenario.
Import Js Packages Git.

Definition bar : NotNeededPackage.t :=
  NotNeededPackage.mk "@types/bar" "lib-bar" "2.0.0".

Definition cacheDir : string := "cache".

(** A registry that knows [lib-bar@2.0.0] and [@types/bar] at 2.1.0, lacks
    version 9.9.9 of [lib-bar], cannot be reached for [flaky], and knows
    nothing else. *)
Definition registry (spec cache : string) : outcome Manifest.t :=
  if String.eqb spec "lib-bar@2.0.0" then Returned (Manifest.mk "2.0.0")
  else if String.eqb spec "@types/bar" then Returned (Manifest.mk "2.1.0")
  else if String.eqb spec "lib-bar@9.9.9"
       then Thrown (mkError (Some "ETARGET") "No matching version found")
  else if String.eqb spec "flaky@1.0.0"
       then Thrown (mkError (Some "ECONNRESET") "network")
  else Thrown (mkError (Some "E404") "Not found").

Definition baz : NotNeededPackage.t :=
  NotNeededPackage.mk "@types/baz" "baz" "1.0.0".

(** An index in which [bar] and [baz] are listed as deprecated; [bar] has no
    files left, [baz] still has declarations. *)
Definition index : AllPackages :=
  {| hasTypingFor :=
       fun id => String.eqb (render (typesDirectoryName id)) "baz";
     getNotNeededPackage :=
       fun p => if String.eqb p "bar" then Some bar
                else if String.eqb p "baz" then Some baz
                else None |}.

Definition diffs : list GitDiff :=
  [FileChange M "notNeededPackages.json";
   FileChange D "types/bar/index.d.ts"].

Definition gitDiff (path : string) : outcome (list GitDiff) :=
  if String.eqb path "bad" then
    Returned [FileChange A "types/x.txt"]
  else Returned diffs.

Definition getAffectedPackages (allPackages : AllPackages)
  (deletions additions : list PackageId) (path : string)
  : outcome (OrErrors PreparePackagesResult) :=
  Returned (NoErrors
    {| packageNames :=
         map (fun p => render (typesDirectoryName p)) (additions ++ deletions);
       dependents := [] |}).




(** A resolver that fails. *)
Definition failing_resolver (allPackages : AllPackages)
  (deletions additions : list PackageId) (path : string)
  : outcome (OrErrors PreparePackagesResult) :=
  Thrown (Error "pnpm failed").

End Scenario.

(* ================================================================= *)
(** ** [git.ts]: the diff source [gitDiff] (lines 31-60) *)

Module DiffSource.
Import Js Packages Git.

(** White space as [\s] and [trim] see it, among ASCII characters: tab,
    line feed, vertical tab, form feed, carriage return and space.  Both
    also match blanks outside ASCII (the no-break space and others); what
    is proved about the parsing of lines is stated for ASCII text. *)
Definition is_space (c : ascii) : bool :=
  let n := nat_of_ascii c in
  (Nat.leb 9 n && Nat.leb n 13) || Nat.eqb n 32.

Definition tab : string := String (ascii_of_nat 9) EmptyString.

Fixpoint trimStart (s : string) : string :=
  match s with
  | EmptyString => EmptyString
  | String c s' => if is_space c then trimStart s' else s
  end.

Fixpoint trimEnd (s : string) : string :=
  match s with
  | EmptyString => EmptyString
  | String c s' =>
      match trimEnd s' with
      | EmptyString => if is_space c then EmptyString else String c EmptyString
      | r => String c r
      end
  end.

(** [s.trim()] *)
Definition trim (s : string) : string := trimEnd (trimStart s).

(** [s.split(/\s+/)]: the pieces between runs of white space.  The head of
    the result is the piece being read; [skipping] tells that the previous
    character was white space. *)
Fixpoint split_spaces_from (skipping : bool) (s : string) : list string :=
  match s with
  | EmptyString => [EmptyString]
  | String c s' =>
      if is_space c then
        if skipping then split_spaces_from true s'
        else EmptyString :: split_spaces_from true s'
      else
        match split_spaces_from false s' with
        | [] => [String c EmptyString]
        | w :: ws => String c w :: ws
        end
  end.

(** [s.split(/\s+/, limit)] *)
Definition split_spaces (s : string) (limit : nat) : list string :=
  firstn limit (split_spaces_from false s).

(** [xs.join(sep)] *)
Fixpoint join (sep : string) (xs : list string) : string :=
  match xs with
  | [] => EmptyString
  | [x] => x
  | x :: rest => (x ++ sep ++ join sep rest)%string
  end.

(** An element of the array [gitDiff] returns.  The source casts it to
    [GitDiff] without a check, so [status] is whatever the line holds. *)
Record DiffEntry : Type := mkEntry {
  entry_status : string;
  entry_file : string;
  entry_source : option string
}.

(** The entries that inhabit the type [GitDiff]. *)
Definition asGitDiff (e : DiffEntry) : option GitDiff :=
  match entry_source e with
  | Some source =>
      if String.eqb (entry_status e) "R"
      then Some (Rename (entry_file e) source) else None
  | None =>
      if String.eqb (entry_status e) "A" then Some (FileChange A (entry_file e))
      else if String.eqb (entry_status e) "D"
           then Some (FileChange D (entry_file e))
      else if String.eqb (entry_status e) "M"
           then Some (FileChange M (entry_file e))
      else None
  end.

(** Calling [trim] on [undefined]. *)
Definition TypeError : JsError :=
  Error "Cannot read properties of undefined (reading 'trim')".

(** The callback of [map] at lines 46-52. *)
Definition parseLine (line : string) : outcome DiffEntry :=
  let parts := split_spaces line 3 in
  let status := nth 0 parts EmptyString in
  let file := nth_error parts 1 in
  let destination := nth_error parts 2 in
  if match status with String "R" _ => true | _ => false end then
    match destination, file with
    | Some destination, Some file =>
        Returned (mkEntry "R" (trim destination) (Some (trim file)))
    | _, _ => Thrown TypeError
    end
  else
    match file with
    | Some file => Returned (mkEntry (trim status) (trim file) None)
    | None => Thrown TypeError
    end.

(** What a run of [gitDiff] does besides returning: the messages it logs
    and the commands it executes. *)
Inductive Event : Type :=
| Log (msg : string)
| Exec (cmd : string) (args : list string) (cwd : string).

Definition Run (A : Type) : Type := (list Event * outcome A)%type.

Definition ret {A : Type} (a : A) : Run A := ([], Returned a).

Definition bind {A B : Type} (m : Run A) (k : A -> Run B) : Run B :=
  match m with
  | (t, Returned a) => let (t', r) := k a in (t ++ t', r)
  | (t, Thrown e) => (t, Thrown e)
  end.

(** [try { m } catch (_) { h }] *)
Definition try_catch {A : Type} (m : Run A) (h : Run A) : Run A :=
  match m with
  | (t, Returned a) => (t, Returned a)
  | (t, Thrown _) => let (t', r) := h in (t ++ t', r)
  end.

Notation "x <~ m ;; k" := (bind m (fun x => k))
  (at level 61, m at next level, right associativity).

(** The commands among the events, in order. *)
Fixpoint commands (t : list Event) : list (string * list string) :=
  match t with
  | [] => []
  | Log _ :: t' => commands t'
  | Exec cmd args _ :: t' => (cmd, args) :: commands t'
  end.

Section GitDiff.
(** [sourceBranch] and [sourceRemote] of [./lib/settings] *)
Variable sourceBranch : string.
Variable sourceRemote : string.
(** [execAndThrowErrors(cmd, args, cwd)], awaited *)
Variable execAndThrowErrors : string -> list string -> string -> outcome string.
Variable definitelyTypedPath : string.

(** The inner function [run] (lines 54-59). *)
Definition run (cmd : string) (args : list string) : Run string :=
  _ <~ ([Log ("Running: " ++ cmd ++ " " ++ join " " args)%string],
        Returned tt) ;;
  stdout <~ ([Exec cmd args definitelyTypedPath],
             execAndThrowErrors cmd args definitelyTypedPath) ;;
  _ <~ ([Log stdout], Returned tt) ;;
  ret stdout.

Definition rev_parse : list string := ["rev-parse"; "--verify"; sourceBranch].
Definition fetch : list string := ["fetch"; sourceRemote; sourceBranch].
Definition branch : list string := ["branch"; sourceBranch; "FETCH_HEAD"].
Definition diff_branch : list string := ["diff"; sourceBranch; "--name-status"].
Definition diff_previous : list string :=
  ["diff"; (sourceBranch ++ "~1")%string; "--name-status"].

Definition gitDiff : Run (list DiffEntry) :=
  _ <~ try_catch
         (_ <~ run "git" rev_parse ;; ret tt)
         (_ <~ run "git" fetch ;;
          _ <~ run "git" branch ;;
          ret tt) ;;
  out <~ run "git" diff_branch ;;
  let diff := trim out in
  diff <~ (if String.eqb diff ""
           then out' <~ run "git" diff_previous ;; ret (trim out')
           else ret diff) ;;
  ([], map_throwing parseLine (split (ascii_of_nat 10) diff)).

End GitDiff.

(** A line of [git diff --name-status] for paths that git prints as they
    are ([printed_raw] characters only): the status letter ([R] with a
    similarity score), a tab, and the path or the two paths. *)
Definition name_status_line (score : string) (d : GitDiff) : string :=
  match d with
  | FileChange _ f => (status d ++ tab ++ f)%string
  | Rename f source => ("R" ++ score ++ tab ++ source ++ tab ++ f)%string
  end.

(** No white space in [s]. *)
Fixpoint no_space (s : string) : bool :=
  match s with
  | EmptyString => true
  | String c s' => negb (is_space c) && no_space s'
  end.

(** A path that survives the line format: not empty, no white space. *)
Definition plain_path (s : string) : bool :=
  negb (String.eqb s "") && no_space s.

Definition plain_paths (d : GitDiff) : bool :=
  match d with
  | FileChange _ f => plain_path f
  | Rename f source => plain_path f && plain_path source
  end.

(** Every character of [s] satisfies [p]. *)
Fixpoint all_chars (p : ascii -> bool) (s : string) : bool :=
  match s with
  | EmptyString => true
  | String c s' => p c && all_chars p s'
  end.

(** A character that [git diff --name-status] prints as it is: a printable
    ASCII character other than the double quote and the backslash.  A path
    with any other character is printed quoted and escaped. *)
Definition printed_raw (c : ascii) : bool :=
  let n := nat_of_ascii c in
  Nat.leb 32 n && Nat.leb n 126 && negb (Nat.eqb n 34) && negb (Nat.eqb n 92).

(** A character printed as it is that is not the space. *)
Definition raw_char (c : ascii) : bool :=
  printed_raw c && negb (Nat.eqb (nat_of_ascii c) 32).

(** A path that git prints as it is and that has no white space: not
    empty, made of [raw_char] characters. *)
Definition raw_path (s : string) : bool :=
  negb (String.eqb s "") && all_chars raw_char s.

Definition raw_paths (d : GitDiff) : bool :=
  match d with
  | FileChange _ f => raw_path f
  | Rename f source => raw_path f && raw_path source
  end.

(** A similarity score: decimal digits. *)
Definition digits (s : string) : bool :=
  all_chars
    (fun c => Nat.leb 48 (nat_of_ascii c) && Nat.leb (nat_of_ascii c) 57) s.

(** ASCII text without white space. *)
Definition ascii_no_space (s : string) : bool :=
  all_chars (fun c => Nat.ltb (nat_of_ascii c) 128 && negb (is_space c)) s.



End DiffSource.

(* ================================================================= *)
(** ** The search index generator ([src/unnamed/part_000]) *)

Module SearchIndex.
Import Js Packages.

(** [xs.sort(compare)]: the sorted permutation that keeps the order of
    elements the comparison ties.  [compare a b <= 0] keeps [a] before
    [b]. *)
Section Sort.
Context {T : Type}.
Variable compare : T -> T -> Z.

Fixpoint insert_sorted (x : T) (l : list T) : list T :=
  match l with
  | [] => [x]
  | y :: l' =>
      if Z.leb (compare x y) 0 then x :: y :: l' else y :: insert_sorted x l'
  end.

Fixpoint Array_sort (l : list T) : list T :=
  match l with
  | [] => []
  | x :: l' => insert_sorted x (Array_sort l')
  end.

End Sort.

Section Main.
(** A parsed package, a search record and a minified search record. *)
Variables Pkg SearchRecord MinifiedSearchRecord : Type.
(** The field [downloads] of a search record. *)
Variable downloads : SearchRecord -> Z.
(** [readAllPackages()] of [./lib/common], awaited *)
Variable readAllPackages : outcome (list Pkg).
(** [createSearchRecord] and [minifySearchRecord] of
    [./lib/search-index-generator] *)
Variable createSearchRecord : Pkg -> bool -> outcome SearchRecord.
Variable minifySearchRecord : SearchRecord -> MinifiedSearchRecord.
(** [nAtATime(n, inputs, use)] of [./lib/util], awaited *)
Variable nAtATime :
  nat -> list Pkg -> (Pkg -> outcome SearchRecord) ->
  outcome (list SearchRecord).

(** The second argument of [writeDataFile]. *)
Inductive Data : Type :=
| Records (records : list SearchRecord)
| MinRecords (minRecords : list MinifiedSearchRecord).

(** [writeDataFile(filename, content, formatted?)] of [./lib/common],
    awaited *)
Variable writeDataFile : string -> Data -> option bool -> outcome unit.
(** Of several rejections, the one that settles first; it is the one
    [Promise.all] rejects with. *)
Variable settles_first : list JsError -> JsError.

Inductive IndexEvent : Type :=
| ConsoleLog (msg : string)
| WriteDataFile (filename : string) (content : Data) (formatted : option bool).

Fixpoint rejections (rs : list (outcome unit)) : list JsError :=
  match rs with
  | [] => []
  | Returned _ :: rs' => rejections rs'
  | Thrown e :: rs' => e :: rejections rs'
  end.

(** [await Promise.all(promises)], the array of values dropped. *)
Definition await_all (rs : list (outcome unit)) : outcome unit :=
  match rejections rs with
  | [] => Returned tt
  | e :: es => Thrown (settles_first (e :: es))
  end.

(** The files written among the events, in the order of the calls. *)
Fixpoint written (t : list IndexEvent)
  : list (string * Data * option bool) :=
  match t with
  | [] => []
  | ConsoleLog _ :: t' => written t'
  | WriteDataFile f c o :: t' => (f, c, o) :: written t'
  end.

(** Lines 15-32. *)
Definition main (skipDownloads : bool) : list IndexEvent * outcome unit :=
  match readAllPackages with
  | Thrown e => ([], Thrown e)
  | Returned packages =>
      let loaded :=
        ConsoleLog ("Loaded " ++ show_nat (length packages) ++ " entries")%string
      in
      match nAtATime 100 packages
              (fun pkg => createSearchRecord pkg skipDownloads) with
      | Thrown e => ([loaded], Thrown e)
      | Returned records =>
          let records :=
            Array_sort (fun a b => (downloads b - downloads a)%Z) records in
          let minRecords := map minifySearchRecord records in
          ([loaded;
            ConsoleLog "Done generating search index";
            ConsoleLog "Writing out data files";
            WriteDataFile "search-index-full.json" (Records records) None;
            WriteDataFile "search-index-min.json" (MinRecords minRecords)
              (Some false);
            WriteDataFile "search-index-head.json"
              (MinRecords (firstn 100 minRecords)) (Some false)],
           await_all
             [writeDataFile "search-index-full.json" (Records records) None;
              writeDataFile "search-index-min.json" (MinRecords minRecords)
                (Some false);
              writeDataFile "search-index-head.json"
                (MinRecords (firstn 100 minRecords)) (Some false)])
      end
  end.

(** [done(promise)] of [./lib/util] *)
Variable done : list IndexEvent * outcome unit -> list IndexEvent * outcome unit.

(** Lines 6-13, run when the file is loaded: [is_entry_point] is
    [!module.parent], [typesDataFileExists] is [existsTypesDataFileSync()] and
    [argv_skipDownloads] is [yargs.argv.skipDownloads]. *)
Definition script (is_entry_point typesDataFileExists argv_skipDownloads : bool)
  : list IndexEvent * outcome unit :=
  if is_entry_point then
    if negb typesDataFileExists
    then ([ConsoleLog "Run parse-definitions first!"], Returned tt)
    else done (main argv_skipDownloads)
  else ([], Returned tt).

End Main.

Arguments written {SearchRecord MinifiedSearchRecord} t.

End SearchIndex.

(* ================================================================= *)
(** ** Concrete runs of the diff source and of the index generator *)

Module ScenarioGit.
Import Js Packages Git DiffSource.



(** A full clone on the source branch itself, with an empty last commit. *)
Definition no_changes (cmd : string) (args : list string) (cwd : string)
  : outcome string :=
  match args with
  | "diff" :: _ => Returned nl
  | _ => Returned "ok"
  end.

End ScenarioGit.

Module ScenarioIndex.
Import Js Packages SearchIndex.

(** Packages are names, a search record is a name with its downloads, a
    minified record is the name. *)
Definition downloads (r : string * Z) : Z := snd r.

Definition createSearchRecord (pkg : string) (skipDownloads : bool)
  : outcome (string * Z) :=
  Returned (pkg, if skipDownloads then (-1)%Z
                 else Z.of_nat (String.length pkg)).

Definition minifySearchRecord (r : string * Z) : string := fst r.

Definition nAtATime (n : nat) (inputs : list string)
  (use : string -> outcome (string * Z)) : outcome (list (string * Z)) :=
  Git.map_throwing use inputs.

Definition writeDataFile (filename : string) (content : Data (string * Z) string)
  (formatted : option bool) : outcome unit :=
  Returned tt.

Definition settles_first (es : list JsError) : JsError :=
  hd (Error "none") es.

Definition packages : list string := ["node"; "react"; "jquery"; "lodash"].

End ScenarioIndex.

(* ================================================================= *)
(** ** Two claims as the specification words them *)

Module AsStated.
Import Js Packages Git.

(** A path under the package root: it starts with [types/] (or with
    [types] and a backslash). *)
Definition under_package_root (path : string) : bool := types_sep_here path.

Section Classifier.
Variable getDependencyFromFile : string -> option PackageId.
Variable formatTypingVersion : DirectoryParsedTypingVersion -> string.

(** A modified file, and a file outside the package root, contributes
    nothing to the result of [gitChanges]. *)
Definition ignored_outside_root (before after : list GitDiff) (d : GitDiff)
  : Prop :=
  status d = "M" \/ under_package_root (file d) = false ->
  gitChanges getDependencyFromFile formatTypingVersion (before ++ d :: after)
  = gitChanges getDependencyFromFile formatTypingVersion (before ++ after).

End Classifier.

Section Pipeline.
Variable getDependencyFromFile : string -> option PackageId.
Variable formatTypingVersion : DirectoryParsedTypingVersion -> string.
Variable cacheDir : string.
Variable pacote_manifest : string -> string -> outcome Manifest.t.
Variable semver_gt : string -> string -> bool.
Variable gitDiff : string -> outcome (list GitDiff).
Variable getAffectedPackages :
  AllPackages -> list PackageId -> list PackageId -> string ->
  outcome (OrErrors PreparePackagesResult).

(** When the deprecation checks return errors, the run returns the error
    list and nothing else. *)
Definition errors_are_returned (allPackages : AllPackages) (path : string)
  : Prop :=
  forall (diffs : list GitDiff) (dels adds : list PackageId)
    (calls : list Call) (errs : list string),
    gitDiff path = Returned diffs ->
    gitChanges getDependencyFromFile formatTypingVersion diffs
    = Changes dels adds ->
    deprecationErrors cacheDir pacote_manifest semver_gt allPackages diffs dels
    = (calls, Returned errs) ->
    errs <> [] ->
    snd (getAffectedPackagesFromDiff getDependencyFromFile formatTypingVersion
           cacheDir pacote_manifest semver_gt gitDiff getAffectedPackages
           allPackages path)
    = Returned (HasErrors errs).

End Pipeline.

End AsStated.

(* ================================================================= *)
(** ** Readings of a result *)

Module Results.
Import Js Packages Git.

(** The errors of a result of [gitChanges], none when it has none. *)
Definition errors_of (r : GitChanges) : list string :=
  match r with
  | Errors es => es
  | Changes _ _ => []
  end.

(** The registry lookups among the calls of a run. *)
Fixpoint lookups (t : list Call) : list string :=
  match t with
  | [] => []
  | Call_manifest spec :: t' => spec :: lookups t'
  | _ :: t' => lookups t'
  end.


End Results.

Import Js Packages Git Spec Results.

(* ================================================================= *)
(** ** The definitions at work *)

Example types_sep_test_examples :
  types_sep_test "types/foo/index.d.ts" = true
  /\ types_sep_test (String.append "types" (String backslash "foo")) = true
  /\ types_sep_test "notNeededPackages.json" = false
  /\ types_sep_test "other/unrelated.txt" = false
  /\ types_sep_test "scripts/types/x.ts" = true
  /\ types_sep_test "types" = false.
Proof. repeat split. Qed.

Example map_set_keeps_position :
  map_set "a" 3 (map_set "b" 2 (map_set "a" 1 [])) = [("a", 3); ("b", 2)].
Proof. reflexivity. Qed.

Example set_from_first_occurrences :
  set_from ["b"; "a"; "b"; "c"; "a"] = ["b"; "a"; "c"].
Proof. reflexivity. Qed.

Example getDependencyFromFile_examples :
  getDependencyFromFile "types/foo/v2/index.d.ts"
  = Some (mkPackageId (Some "foo") (Exact (mkVersion 2 None)))
  /\ getDependencyFromFile "types/foo/v1.5/index.d.ts"
     = Some (mkPackageId (Some "foo") (Exact (mkVersion 1 (Some 5))))
  /\ getDependencyFromFile "types/foo/index.d.ts"
     = Some (mkPackageId (Some "foo") Star)
  /\ getDependencyFromFile "types/x.txt" = None
  /\ getDependencyFromFile "other/unrelated.txt" = None.
Proof. repeat split. Qed.

Example key_examples :
  key formatTypingVersion (mkPackageId (Some "foo") Star) = "foo/v*"
  /\ key formatTypingVersion
       (mkPackageId (Some "foo") (Exact (mkVersion 1 (Some 5)))) = "foo/v1.5"
  /\ key formatTypingVersion
       (mkPackageId (Some "foo") (Exact (mkVersion 2 None))) = "foo/v2".
Proof. repeat split. Qed.

Example gitChanges_add_v2 :
  gitChanges getDependencyFromFile formatTypingVersion
    [FileChange A "types/foo/v2/index.d.ts"]
  = Changes [] [mkPackageId (Some "foo") (Exact (mkVersion 2 None))].
Proof. reflexivity. Qed.

Example gitChanges_rename_scenario :
  gitChanges getDependencyFromFile formatTypingVersion
    [Rename "types/foo/v2/index.d.ts" "types/foo/index.d.ts"]
  = Changes [mkPackageId (Some "foo") Star]
            [mkPackageId (Some "foo") (Exact (mkVersion 2 None))].
Proof. reflexivity. Qed.

Example gitChanges_batches_errors :
  gitChanges getDependencyFromFile formatTypingVersion
    [FileChange D "types/y.txt";
     FileChange A "types/foo/index.d.ts";
     FileChange M "types/z.txt";
     FileChange D "other/unrelated.txt";
     Rename "types/x.txt" "types/foo/a.d.ts"]
  = Errors [unexpected_file (FileChange D "types/y.txt");
            unexpected_file (Rename "types/x.txt" "types/foo/a.d.ts")].
Proof. reflexivity. Qed.

Example gitChanges_added_then_deleted :
  gitChanges getDependencyFromFile formatTypingVersion
    [FileChange A "types/foo/index.d.ts";
     FileChange D "types/foo/index.d.ts"]
  = Changes [mkPackageId (Some "foo") Star] [mkPackageId (Some "foo") Star].
Proof. reflexivity. Qed.

Example semver_gt_examples :
  Semver.gt "2.0.0" "2.1.0" = false
  /\ Semver.gt "2.1.0" "2.1.0" = false
  /\ Semver.gt "2.1.1" "2.1.0" = true
  /\ Semver.gt "10.0.0" "9.9.9" = true.
Proof. repeat split. Qed.

Example run_bar :
  getAffectedPackagesFromDiff getDependencyFromFile formatTypingVersion
    Scenario.cacheDir Scenario.registry Semver.gt Scenario.gitDiff
    Scenario.getAffectedPackages Scenario.index "DefinitelyTyped"
  = ([Call_gitDiff "DefinitelyTyped";
      Call_getNotNeededPackages [mkPackageId (Some "bar") Star];
      Call_checkNotNeededPackage Scenario.bar;
      Call_manifest "lib-bar@2.0.0";
      Call_manifest "@types/bar";
      Call_getAffectedPackages [mkPackageId (Some "bar") Star] []],
     Returned (HasErrors
       [must_be_newer Scenario.bar (Manifest.mk "2.1.0")])).
Proof. vm_compute. reflexivity. Qed.

(* ================================================================= *)
(** ** Insertion-ordered maps and sets *)

Section MapFacts.
Context {V : Type}.
Implicit Types (m : JsMap V) (k : string) (v : V).

Lemma map_set_keys_in k v m k' :
  In k' (map_keys (map_set k v m)) <-> k' = k \/ In k' (map_keys m).
Proof.
  induction m as [|[k0 v0] m IH]; simpl.
  - intuition.
  - destruct (String.eqb_spec k k0) as [->|Hne]; simpl.
    + intuition.
    + rewrite IH. intuition.
Qed.

Lemma map_set_NoDup k v m :
  NoDup (map_keys m) -> NoDup (map_keys (map_set k v m)).
Proof.
  induction m as [|[k0 v0] m IH]; simpl; intros Hnd.
  - constructor; [intros [] | constructor].
  - inversion Hnd as [|? ? Hnin Hnd']; subst.
    destruct (String.eqb_spec k k0) as [->|Hne]; simpl.
    + constructor; assumption.
    + constructor; [|auto].
      intros Hin. apply map_set_keys_in in Hin.
      destruct Hin as [->|Hin]; [congruence | contradiction].
Qed.

Lemma map_get_set_same k v m : map_get k (map_set k v m) = Some v.
Proof.
  induction m as [|[k0 v0] m IH]; simpl.
  - now rewrite String.eqb_refl.
  - destruct (String.eqb_spec k k0) as [->|Hne]; simpl.
    + now rewrite String.eqb_refl.
    + destruct (String.eqb_spec k k0); [contradiction | exact IH].
Qed.

Lemma map_get_set_other k v m k' :
  k' <> k -> map_get k' (map_set k v m) = map_get k' m.
Proof.
  intros Hne.
  induction m as [|[k0 v0] m IH]; simpl.
  - destruct (String.eqb_spec k' k); [contradiction | reflexivity].
  - destruct (String.eqb_spec k k0) as [->|Hne0]; simpl.
    + destruct (String.eqb_spec k' k0); [contradiction | reflexivity].
    + now rewrite IH.
Qed.

Lemma apply_writes_app (ws1 ws2 : list (string * V)) m :
  apply_writes (ws1 ++ ws2) m = apply_writes ws2 (apply_writes ws1 m).
Proof. apply fold_left_app. Qed.

Lemma apply_writes_NoDup (ws : list (string * V)) m :
  NoDup (map_keys m) -> NoDup (map_keys (apply_writes ws m)).
Proof.
  revert m. induction ws as [|[k v] ws IH]; simpl; intros m Hnd.
  - exact Hnd.
  - apply IH, map_set_NoDup, Hnd.
Qed.

(** Last write wins: the value under [k] is the one of the last [set] on
    [k], and the earlier value when there was none. *)
Lemma map_get_apply_writes (ws : list (string * V)) m k :
  map_get k (apply_writes ws m)
  = match last_write ws k with
    | Some v => Some v
    | None => map_get k m
    end.
Proof.
  revert m. induction ws as [|[k0 v0] ws IH]; simpl; intros m.
  - reflexivity.
  - rewrite IH. destruct (last_write ws k) as [v|]; [reflexivity|].
    destruct (String.eqb_spec k k0) as [->|Hne].
    + apply map_get_set_same.
    + now apply map_get_set_other.
Qed.

(** Every stored pair was written by one of the [set] calls, or was there
    before. *)
Lemma apply_writes_In (ws : list (string * V)) m kv :
  In kv (apply_writes ws m) -> In kv ws \/ In kv m.
Proof.
  revert m. induction ws as [|[k v] ws IH]; simpl; intros m Hin.
  - now right.
  - apply IH in Hin. destruct Hin as [Hin|Hin]; [now left; right|].
    clear IH. induction m as [|[k0 v0] m IHm]; simpl in Hin.
    + destruct Hin as [<-|[]]. now left; left.
    + destruct (String.eqb k k0); simpl in Hin.
      * destruct Hin as [<-|Hin]; [now left; left | now right; right].
      * destruct Hin as [<-|Hin]; [now right; left|].
        destruct (IHm Hin) as [H|H]; [now left | now right; right].
Qed.

End MapFacts.

(* ================================================================= *)
(** ** The change classifier [gitChanges] *)

Section ClassifierFacts.
Variable getDependencyFromFile : string -> option PackageId.
Variable formatTypingVersion : DirectoryParsedTypingVersion -> string.

Local Notation "'step'" :=
  (gitChanges_step getDependencyFromFile formatTypingVersion).
Local Notation "'loop'" :=
  (gitChanges_loop getDependencyFromFile formatTypingVersion).
Local Notation "'deleted_by'" :=
  (deletion_writes getDependencyFromFile formatTypingVersion).
Local Notation "'added_by'" :=
  (addition_writes getDependencyFromFile formatTypingVersion).
Local Notation "'is_rejected'" := (rejected getDependencyFromFile).
Local Notation "'key_of'" := (key formatTypingVersion).

(** The status strings of the four kinds of event. *)
Lemma status_cases (d : GitDiff) :
  match d with
  | FileChange A _ => status d = "A"
  | FileChange D _ => status d = "D"
  | FileChange M _ => status d = "M"
  | Rename _ _ => status d = "R"
  end.
Proof. destruct d as [[] f|f src]; reflexivity. Qed.

(** What one iteration does to each of the three accumulators. *)
Lemma step_deletions (s : Acc) (d : GitDiff) :
  deletions (step s d)
  = apply_writes (deleted_by d) (deletions s).
Proof.
  unfold gitChanges_step, deletion_writes, classified.
  destruct (types_sep_test (file d)); simpl; [|reflexivity].
  destruct d as [[] f|f src]; simpl; try reflexivity;
    destruct (getDependencyFromFile f) as [dep|]; simpl; try reflexivity.
  destruct (getDependencyFromFile src) as [srcDep|]; reflexivity.
Qed.

Lemma step_additions (s : Acc) (d : GitDiff) :
  additions (step s d)
  = apply_writes (added_by d) (additions s).
Proof.
  unfold gitChanges_step, addition_writes, classified.
  destruct (types_sep_test (file d)); simpl; [|reflexivity].
  destruct d as [[] f|f src]; simpl; try reflexivity;
    destruct (getDependencyFromFile f) as [dep|]; simpl; try reflexivity.
  destruct (getDependencyFromFile src) as [srcDep|]; reflexivity.
Qed.

Lemma step_errors (s : Acc) (d : GitDiff) :
  errors (step s d)
  = errors s ++ (if is_rejected d then [unexpected_file d] else []).
Proof.
  unfold gitChanges_step, rejected, classified.
  destruct (types_sep_test (file d)); simpl; [|now rewrite app_nil_r].
  destruct d as [[] f|f src]; simpl; try (now rewrite app_nil_r);
    destruct (getDependencyFromFile f) as [dep|]; simpl;
    try (now rewrite app_nil_r);
    try reflexivity.
  destruct (getDependencyFromFile src); simpl; now rewrite app_nil_r.
Qed.

(** An event that is not classified leaves the accumulators as they are. *)
Lemma step_unclassified (s : Acc) (d : GitDiff) :
  classified d = false -> step s d = s.
Proof.
  unfold gitChanges_step, classified. intros H.
  destruct (types_sep_test (file d)); simpl in *; [|reflexivity].
  apply negb_false_iff in H. now rewrite H.
Qed.

(** The accumulators after a run from any state. *)
Lemma fold_deletions (diffs : list GitDiff) (s : Acc) :
  deletions (fold_left step diffs s)
  = apply_writes (flat_map (deleted_by) diffs) (deletions s).
Proof.
  revert s. induction diffs as [|d diffs IH]; simpl; intros s.
  - reflexivity.
  - now rewrite IH, step_deletions, apply_writes_app.
Qed.

Lemma fold_additions (diffs : list GitDiff) (s : Acc) :
  additions (fold_left step diffs s)
  = apply_writes (flat_map (added_by) diffs) (additions s).
Proof.
  revert s. induction diffs as [|d diffs IH]; simpl; intros s.
  - reflexivity.
  - now rewrite IH, step_additions, apply_writes_app.
Qed.

Lemma fold_errors (diffs : list GitDiff) (s : Acc) :
  errors (fold_left step diffs s)
  = errors s ++ map unexpected_file (filter is_rejected diffs).
Proof.
  revert s. induction diffs as [|d diffs IH]; simpl; intros s.
  - now rewrite app_nil_r.
  - rewrite IH, step_errors, <- app_assoc.
    destruct (is_rejected d); reflexivity.
Qed.

Lemma writes_keyed (d : GitDiff) (kv : string * PackageId) :
  In kv (deleted_by d)
  \/ In kv (added_by d) ->
  fst kv = key_of (snd kv).
Proof.
  unfold deletion_writes, addition_writes.
  destruct (classified d); [|intros [[]|[]]].
  destruct d as [[] f|f src]; simpl;
    destruct (getDependencyFromFile f) as [dep|]; simpl;
    try destruct (getDependencyFromFile src) as [srcDep|]; simpl;
    intros H; decompose [or] H; subst; try reflexivity; try contradiction.
Qed.

End ClassifierFacts.

Section ClassifierClaims.
Variable getDependencyFromFile : string -> option PackageId.
Variable formatTypingVersion : DirectoryParsedTypingVersion -> string.

Local Notation "'step'" :=
  (gitChanges_step getDependencyFromFile formatTypingVersion).
Local Notation "'loop'" :=
  (gitChanges_loop getDependencyFromFile formatTypingVersion).
Local Notation "'classify'" :=
  (gitChanges getDependencyFromFile formatTypingVersion).
Local Notation "'deleted_by'" :=
  (deletion_writes getDependencyFromFile formatTypingVersion).
Local Notation "'added_by'" :=
  (addition_writes getDependencyFromFile formatTypingVersion).
Local Notation "'is_rejected'" := (rejected getDependencyFromFile).
Local Notation "'key_of'" := (key formatTypingVersion).

(** C1 (amended): at any time during the run of [gitChanges] (after any
    sequence of events), each of the two maps holds a composite key at most
    once, and the identity stored under a key is the one of the last event
    that wrote that key into that map (last write wins per key and per map,
    nothing is accumulated); every identity is stored under its own
    composite key.  The two maps are independent: a key may be present in
    both of them. *)
Theorem gitChanges_last_write_wins (diffs : list GitDiff) :
  NoDup (map_keys (deletions (loop diffs)))
  /\ NoDup (map_keys (additions (loop diffs)))
  /\ (forall k : string,
        map_get k (deletions (loop diffs))
        = last_write (flat_map (deleted_by) diffs) k)
  /\ (forall k : string,
        map_get k (additions (loop diffs))
        = last_write (flat_map (added_by) diffs) k)
  /\ (forall (k : string) (p : PackageId),
        In (k, p) (deletions (loop diffs))
        \/ In (k, p) (additions (loop diffs)) ->
        k = key_of p).
Proof.
  unfold gitChanges_loop. rewrite fold_deletions, fold_additions. simpl.
  repeat split.
  - apply apply_writes_NoDup. constructor.
  - apply apply_writes_NoDup. constructor.
  - intros k. rewrite map_get_apply_writes.
    now destruct (last_write _ k).
  - intros k. rewrite map_get_apply_writes.
    now destruct (last_write _ k).
  - intros k p [H|H]; apply apply_writes_In in H;
      destruct H as [H|[]]; apply in_flat_map in H;
      destruct H as [d [_ H]];
      apply (writes_keyed getDependencyFromFile formatTypingVersion d (k, p));
      auto.
Qed.

(** C2 (amended): the errors of a run are exactly one message for each
    event that is classified (its file passes the test of line 73 and it is
    not a modification) and whose path the grammar rejects, in the order of
    the diff; when there is such an event the result of [gitChanges] is that
    error list alone, and otherwise it is the two collections. *)
Theorem gitChanges_structural_errors (diffs : list GitDiff) :
  errors (loop diffs)
  = map unexpected_file (filter is_rejected diffs)
  /\ classify diffs
     = if existsb is_rejected diffs
       then Errors (map unexpected_file (filter is_rejected diffs))
       else Changes
              (map_values (deletions (loop diffs)))
              (map_values (additions (loop diffs))).
Proof.
  assert (E : errors (loop diffs)
              = map unexpected_file (filter is_rejected diffs)).
  { unfold gitChanges_loop. now rewrite fold_errors. }
  split; [exact E|].
  unfold gitChanges. rewrite E.
  assert (X : existsb is_rejected diffs
              = match filter is_rejected diffs with
                | [] => false
                | _ :: _ => true
                end).
  { clear E. induction diffs as [|d ds IH]; simpl; [reflexivity|].
    destruct (is_rejected d); simpl; [reflexivity | exact IH]. }
  rewrite X. now destruct (filter is_rejected diffs).
Qed.

(** C4: when both paths pass the test of line 73 and both map to an
    identity, a rename from [a] to [b] is classified as the deletion of [a]
    followed by the addition of [b]: the source's identity is the only
    deletion and the destination's identity the only addition. *)
Theorem gitChanges_rename_equivalence (a b : string) (da db : PackageId) :
  types_sep_test a = true ->
  types_sep_test b = true ->
  getDependencyFromFile a = Some da ->
  getDependencyFromFile b = Some db ->
  classify [Rename b a]
  = classify [FileChange D a; FileChange A b]
  /\ classify [Rename b a] = Changes [da] [db].
Proof.
  intros Ta Tb Pa Pb.
  unfold gitChanges, gitChanges_loop, gitChanges_step; simpl.
  rewrite Ta, Tb, Pa, Pb; simpl. split; reflexivity.
Qed.

(** C8 (amended): an event with status [M], and an event whose file fails
    the test of line 73 (the path holds [types/] or [types\] nowhere),
    contributes nothing: the iteration leaves the three accumulators as they
    are, and the result of [gitChanges] is that of the diff without the
    event.  The test is not anchored: a path outside the package root that
    holds such a segment passes it and is classified. *)
Theorem gitChanges_ignores (before after : list GitDiff) (d : GitDiff) :
  status d = "M" \/ types_sep_test (file d) = false ->
  (forall s : Acc, step s d = s)
  /\ classify (before ++ d :: after)
     = classify (before ++ after).
Proof.
  intros H.
  assert (U : classified d = false).
  { unfold classified. destruct H as [-> | ->]; simpl;
      [apply andb_false_r | reflexivity]. }
  split.
  - intros s. now apply step_unclassified.
  - unfold gitChanges, gitChanges_loop.
    rewrite !fold_left_app. simpl.
    now rewrite step_unclassified.
Qed.

(** C9: for a rename whose destination passes the test of line 73 and maps
    to an identity while its source does not map, the iteration records the
    destination in [additions] and leaves [deletions] and [errors] as they
    are; alone in a diff, the event yields the destination as the only
    addition, no deletion and no error. *)
Theorem gitChanges_rename_unmapped_source
  (s : Acc) (destination source : string) (dep : PackageId) :
  types_sep_test destination = true ->
  getDependencyFromFile destination = Some dep ->
  getDependencyFromFile source = None ->
  step s (Rename destination source)
  = {| deletions := deletions s;
       additions := map_set (key_of dep) dep (additions s);
       errors := errors s |}
  /\ classify [Rename destination source] = Changes [] [dep].
Proof.
  intros T Pd Ps.
  unfold gitChanges, gitChanges_loop, gitChanges_step; simpl.
  rewrite T, Pd, Ps; simpl. split; reflexivity.
Qed.

End ClassifierClaims.

(** C1, as stated, fails: the key [foo/v*] is in both maps after
    [types/foo/index.d.ts] was added and then deleted. *)
Lemma gitChanges_key_in_both_maps :
  ~ keys_disjoint
      (gitChanges_loop getDependencyFromFile formatTypingVersion
         [FileChange A "types/foo/index.d.ts";
          FileChange D "types/foo/index.d.ts"]).
Proof.
  intros H. apply (H "foo/v*"). vm_compute. split; left; reflexivity.
Qed.

(** C2, as stated, fails: the deletion of [other/unrelated.txt], a path the
    grammar rejects, yields no error; the result is the two empty
    collections. *)
Lemma gitChanges_unrelated_file_no_error :
  ~ structural_rejection getDependencyFromFile formatTypingVersion
      [FileChange D "other/unrelated.txt"].
Proof.
  unfold structural_rejection. intros H.
  assert (X : gitChanges getDependencyFromFile formatTypingVersion
                [FileChange D "other/unrelated.txt"] = Changes [] [])
    by reflexivity.
  rewrite X in H. discriminate H. vm_compute. discriminate.
Qed.

Lemma gitChanges_rename_equivalence_witness :
  gitChanges getDependencyFromFile formatTypingVersion
    [Rename "types/foo/v2/index.d.ts" "types/foo/index.d.ts"]
  = gitChanges getDependencyFromFile formatTypingVersion
      [FileChange D "types/foo/index.d.ts";
       FileChange A "types/foo/v2/index.d.ts"]
  /\ gitChanges getDependencyFromFile formatTypingVersion
       [Rename "types/foo/v2/index.d.ts" "types/foo/index.d.ts"]
     = Changes [mkPackageId (Some "foo") Star]
               [mkPackageId (Some "foo") (Exact (mkVersion 2 None))].
Proof.
  apply (gitChanges_rename_equivalence
           getDependencyFromFile formatTypingVersion
           "types/foo/index.d.ts" "types/foo/v2/index.d.ts");
    reflexivity.
Defined.

Lemma gitChanges_ignores_witness :
  gitChanges getDependencyFromFile formatTypingVersion
    ([FileChange A "types/foo/index.d.ts"]
       ++ FileChange M "types/foo/foo-tests.ts"
       :: [FileChange D "types/bar/index.d.ts"])
  = gitChanges getDependencyFromFile formatTypingVersion
      ([FileChange A "types/foo/index.d.ts"]
         ++ [FileChange D "types/bar/index.d.ts"])
  /\ gitChanges getDependencyFromFile formatTypingVersion
       ([] ++ FileChange D "other/unrelated.txt" :: [])
     = gitChanges getDependencyFromFile formatTypingVersion ([] ++ []).
Proof.
  split.
  - apply (gitChanges_ignores getDependencyFromFile formatTypingVersion).
    left. reflexivity.
  - apply (gitChanges_ignores getDependencyFromFile formatTypingVersion).
    right. reflexivity.
Defined.

Lemma gitChanges_rename_unmapped_source_witness :
  gitChanges getDependencyFromFile formatTypingVersion
    [Rename "types/foo/index.d.ts" "README.md"]
  = Changes [] [mkPackageId (Some "foo") Star].
Proof.
  apply (gitChanges_rename_unmapped_source
           getDependencyFromFile formatTypingVersion empty_acc
           "types/foo/index.d.ts" "README.md");
    reflexivity.
Defined.

(* ================================================================= *)
(** ** The registry check [checkNotNeededPackage] *)

Lemma string_app_assoc (a b c : string) :
  ((a ++ b) ++ c = a ++ (b ++ c))%string.
Proof. induction a as [|x a IH]; simpl; [reflexivity | now rewrite IH]. Qed.

Lemma must_be_newer_cites (unneeded : NotNeededPackage.t)
  (typings : Manifest.t) :
  cites (must_be_newer unneeded typings) (NotNeededPackage.version unneeded)
  /\ cites (must_be_newer unneeded typings) (Manifest.version typings).
Proof.
  unfold cites, must_be_newer. split.
  - exists "The specified version ". eexists. reflexivity.
  - exists ("The specified version " ++ NotNeededPackage.version unneeded
            ++ " of " ++ NotNeededPackage.libraryName unneeded
            ++ " must be newer than the version" ++ nl
            ++ "it is supposed to replace, ")%string.
    eexists. rewrite !string_app_assoc. reflexivity.
Qed.

Section RegistryClaims.
Variable cacheDir : string.
Variable pacote_manifest : string -> string -> outcome Manifest.t.
Variable semver_gt : string -> string -> bool.

Local Notation "'check'" :=
  (checkNotNeededPackage cacheDir pacote_manifest semver_gt).
Local Notation "'replacement_lookup' u" :=
  (pacote_manifest
     (NotNeededPackage.libraryName u ++ "@" ++ NotNeededPackage.version u)%string
     cacheDir) (at level 10).
Local Notation "'typings_lookup' u" :=
  (pacote_manifest (NotNeededPackage.name u) cacheDir) (at level 10).

(** Every call of the registry check is a call of the deprecation checks. *)
Lemma checkNotNeededPackage_calls (unneeded : NotNeededPackage.t) :
  forallb is_validator_call (fst (check unneeded)) = true.
Proof.
  unfold checkNotNeededPackage, manifest, invoke, bind, catch, ret, throw.
  destruct (replacement_lookup unneeded) as [m|reason]; simpl.
  - destruct (typings_lookup unneeded) as [t|r2]; simpl.
    + now destruct (negb _).
    + now destruct (code_is r2 "E404").
  - destruct (code_is reason "E404"); simpl.
    + destruct (typings_lookup unneeded) as [t|r2]; simpl.
      * now destruct (negb _).
      * now destruct (code_is r2 "E404").
    + destruct (code_is reason "ETARGET"); simpl; [|reflexivity].
      destruct (typings_lookup unneeded) as [t|r2]; simpl.
      * now destruct (negb _).
      * now destruct (code_is r2 "E404").
Qed.

(** C5: when both registry lookups succeed, the check returns an error if
    and only if [semver.gt] does not place the record's version strictly
    above the latest published version of the deprecated package; that
    error is the only one and it cites both versions. *)
Theorem checkNotNeededPackage_version_order
  (unneeded : NotNeededPackage.t) (replacement typings : Manifest.t) :
  replacement_lookup unneeded = Returned replacement ->
  typings_lookup unneeded = Returned typings ->
  exists errs : list string,
    snd (check unneeded) = Returned errs
    /\ (errs <> []
        <-> semver_gt (NotNeededPackage.version unneeded)
              (Manifest.version typings) = false)
    /\ (errs = [] \/ errs = [must_be_newer unneeded typings])
    /\ (forall e : string, In e errs ->
          cites e (NotNeededPackage.version unneeded)
          /\ cites e (Manifest.version typings)).
Proof.
  intros H1 H2.
  unfold checkNotNeededPackage, manifest, invoke, bind, catch, ret, throw.
  rewrite H1; simpl. rewrite H2; simpl.
  destruct (semver_gt _ _) eqn:G; simpl.
  - exists []. split; [reflexivity|]. split; [|split].
    + split; intros; congruence.
    + now left.
    + intros e [].
  - exists [must_be_newer unneeded typings].
    split; [reflexivity|]. split; [|split].
    + split; intros; congruence.
    + now right.
    + intros e [<-|[]]. apply must_be_newer_cites.
Qed.

(** C6: a not-found error ([E404]) of the replacement lookup and a
    version-not-found error ([ETARGET]) of it are each turned into a
    collected message, and the two messages differ; an error of the
    replacement lookup with any other code, and an error of the typings
    lookup with any code but [E404], is rethrown: the check ends with that
    error thrown and returns no error list. *)
Theorem checkNotNeededPackage_registry_errors (unneeded : NotNeededPackage.t) :
  (forall reason : JsError,
     replacement_lookup unneeded = Thrown reason ->
     code reason = Some "E404" ->
     survives rethrown_by_typings_lookup (typings_lookup unneeded) ->
     exists rest : list string,
       snd (check unneeded) = Returned (no_npm_package unneeded :: rest))
  /\ (forall reason : JsError,
        replacement_lookup unneeded = Thrown reason ->
        code reason = Some "ETARGET" ->
        survives rethrown_by_typings_lookup (typings_lookup unneeded) ->
        exists rest : list string,
          snd (check unneeded)
          = Returned (version_not_on_npm unneeded :: rest))
  /\ (forall other : NotNeededPackage.t,
        no_npm_package unneeded <> version_not_on_npm other)
  /\ (forall reason : JsError,
        replacement_lookup unneeded = Thrown reason ->
        rethrown_by_replacement_lookup reason = true ->
        snd (check unneeded) = Thrown reason)
  /\ (forall reason : JsError,
        survives rethrown_by_replacement_lookup (replacement_lookup unneeded) ->
        typings_lookup unneeded = Thrown reason ->
        rethrown_by_typings_lookup reason = true ->
        snd (check unneeded) = Thrown reason).
Proof.
  unfold rethrown_by_replacement_lookup, rethrown_by_typings_lookup, survives.
  repeat split.
  - intros reason H1 C S.
    unfold checkNotNeededPackage, manifest, invoke, bind, catch, ret, throw.
    rewrite H1; unfold code_is; rewrite C; simpl.
    destruct (typings_lookup unneeded) as [t|r2]; simpl.
    + destruct (negb _); eexists; reflexivity.
    + apply negb_false_iff in S. unfold code_is in S.
      destruct (code r2) as [c|]; [|discriminate]. rewrite S. simpl.
      eexists; reflexivity.
  - intros reason H1 C S.
    unfold checkNotNeededPackage, manifest, invoke, bind, catch, ret, throw.
    rewrite H1; unfold code_is; rewrite C; simpl.
    destruct (typings_lookup unneeded) as [t|r2]; simpl.
    + destruct (negb _); eexists; reflexivity.
    + apply negb_false_iff in S. unfold code_is in S.
      destruct (code r2) as [c|]; [|discriminate]. rewrite S. simpl.
      eexists; reflexivity.
  - intros other. unfold no_npm_package, version_not_on_npm. simpl.
    discriminate.
  - intros reason H1 R.
    apply andb_true_iff in R. destruct R as [R1 R2].
    apply negb_true_iff in R1, R2.
    unfold checkNotNeededPackage, manifest, invoke, bind, catch, ret, throw.
    rewrite H1, R1, R2. reflexivity.
  - intros reason S H2 R. apply negb_true_iff in R.
    unfold checkNotNeededPackage, manifest, invoke, bind, catch, ret, throw.
    destruct (replacement_lookup unneeded) as [m|r1]; simpl.
    + rewrite H2, R. reflexivity.
    + apply andb_false_iff in S.
      destruct (code_is r1 "E404") eqn:E1; simpl.
      * rewrite H2, R. reflexivity.
      * destruct (code_is r1 "ETARGET") eqn:E2; simpl.
        -- rewrite H2, R. reflexivity.
        -- destruct S; discriminate.
Qed.

End RegistryClaims.

Lemma checkNotNeededPackage_version_order_witness :
  exists errs : list string,
    snd (checkNotNeededPackage Scenario.cacheDir Scenario.registry Semver.gt
           Scenario.bar) = Returned errs
    /\ (errs <> [] <-> Semver.gt "2.0.0" "2.1.0" = false)
    /\ (errs = []
        \/ errs = [must_be_newer Scenario.bar (Manifest.mk "2.1.0")])
    /\ (forall e : string, In e errs -> cites e "2.0.0" /\ cites e "2.1.0").
Proof.
  apply (checkNotNeededPackage_version_order
           Scenario.cacheDir Scenario.registry Semver.gt
           Scenario.bar (Manifest.mk "2.0.0") (Manifest.mk "2.1.0"));
    reflexivity.
Defined.

Lemma checkNotNeededPackage_registry_errors_witness :
  (exists rest : list string,
     snd (checkNotNeededPackage Scenario.cacheDir Scenario.registry Semver.gt
            (NotNeededPackage.mk "@types/bar" "nowhere" "1.0.0"))
     = Returned
         (no_npm_package (NotNeededPackage.mk "@types/bar" "nowhere" "1.0.0")
            :: rest))
  /\ (exists rest : list string,
        snd (checkNotNeededPackage Scenario.cacheDir Scenario.registry
               Semver.gt (NotNeededPackage.mk "@types/bar" "lib-bar" "9.9.9"))
        = Returned
            (version_not_on_npm
               (NotNeededPackage.mk "@types/bar" "lib-bar" "9.9.9") :: rest))
  /\ snd (checkNotNeededPackage Scenario.cacheDir Scenario.registry Semver.gt
            (NotNeededPackage.mk "@types/bar" "flaky" "1.0.0"))
     = Thrown (mkError (Some "ECONNRESET") "network")
  /\ snd (checkNotNeededPackage Scenario.cacheDir Scenario.registry Semver.gt
            (NotNeededPackage.mk "flaky@1.0.0" "lib-bar" "2.0.0"))
     = Thrown (mkError (Some "ECONNRESET") "network").
Proof.
  split; [|split; [|split]].
  - apply (proj1 (checkNotNeededPackage_registry_errors
                    Scenario.cacheDir Scenario.registry Semver.gt
                    (NotNeededPackage.mk "@types/bar" "nowhere" "1.0.0"))
             (mkError (Some "E404") "Not found"));
      reflexivity.
  - apply (proj1 (proj2 (checkNotNeededPackage_registry_errors
                    Scenario.cacheDir Scenario.registry Semver.gt
                    (NotNeededPackage.mk "@types/bar" "lib-bar" "9.9.9")))
             (mkError (Some "ETARGET") "No matching version found"));
      reflexivity.
  - apply (proj1 (proj2 (proj2 (proj2 (checkNotNeededPackage_registry_errors
                    Scenario.cacheDir Scenario.registry Semver.gt
                    (NotNeededPackage.mk "@types/bar" "flaky" "1.0.0"))))));
      reflexivity.
  - apply (proj2 (proj2 (proj2 (proj2 (checkNotNeededPackage_registry_errors
                    Scenario.cacheDir Scenario.registry Semver.gt
                    (NotNeededPackage.mk "flaky@1.0.0" "lib-bar" "2.0.0"))))));
      first [exact I | reflexivity].
Defined.

(* ================================================================= *)
(** ** The consistency check [getNotNeededPackages] *)

Lemma set_from_acc (xs s0 : list string) :
  NoDup s0 ->
  NoDup (fold_left (fun s x => set_add x s) xs s0)
  /\ (forall x : string,
        In x (fold_left (fun s x => set_add x s) xs s0)
        <-> In x s0 \/ In x xs).
Proof.
  revert s0. induction xs as [|y xs IH]; simpl; intros s0 Hnd.
  - split; [exact Hnd | intuition].
  - assert (Hadd : NoDup (set_add y s0)
                   /\ forall x, In x (set_add y s0) <-> In x s0 \/ y = x).
    { unfold set_add. destruct (existsb (String.eqb y) s0) eqn:E.
      - split; [exact Hnd|]. intros x. split; [auto|].
        intros [H|<-]; [exact H|].
        apply existsb_exists in E. destruct E as [z [Hz Ez]].
        apply String.eqb_eq in Ez. now subst.
      - split.
        + apply NoDup_app; [exact Hnd | constructor; [intros []|constructor] |].
          intros a Ha [Heq|[]]. subst a.
          assert (X : existsb (String.eqb y) s0 = true).
          { apply existsb_exists. exists y. now rewrite String.eqb_refl. }
          congruence.
        + intros x. rewrite in_app_iff. simpl. intuition. }
    destruct Hadd as [Hnd' Hin'].
    destruct (IH _ Hnd') as [IH1 IH2]. split; [exact IH1|].
    intros x. rewrite IH2, Hin'. intuition.
Qed.

(** [new Set(xs)] holds the elements of [xs], each once. *)
Lemma set_from_spec (xs : list string) :
  NoDup (set_from xs) /\ (forall x : string, In x (set_from xs) <-> In x xs).
Proof.
  destruct (set_from_acc xs [] (NoDup_nil _)) as [H1 H2].
  split; [exact H1|]. intros x. unfold set_from. rewrite H2. simpl. intuition.
Qed.

Lemma assertDefined_all (deletions : list PackageId) (names : list string) :
  map typesDirectoryName deletions = map Some names ->
  map_throwing (fun p => assertDefined (typesDirectoryName p)) deletions
  = Returned names.
Proof.
  revert names. induction deletions as [|p ps IH]; intros [|n ns] H;
    simpl in *; try discriminate; [reflexivity|].
  injection H as Hp Hps. rewrite Hp. simpl. now rewrite (IH ns Hps).
Qed.

Lemma assertDefined_some (deletions : list PackageId) :
  (exists p : PackageId, In p deletions /\ typesDirectoryName p = None) ->
  exists e : JsError,
    map_throwing (fun p => assertDefined (typesDirectoryName p)) deletions
    = Thrown e.
Proof.
  induction deletions as [|q ps IH]; intros [p [Hin Hp]]; simpl in *.
  - contradiction.
  - destruct (typesDirectoryName q) as [n|] eqn:Eq; simpl.
    + destruct Hin as [->|Hin]; [congruence|].
      destruct IH as [e He]; [now exists p|]. rewrite He. now exists e.
    + eexists; reflexivity.
Qed.

Lemma defined_names (deletions : list PackageId) :
  (forall p : PackageId, In p deletions -> typesDirectoryName p <> None) ->
  exists names : list string,
    map typesDirectoryName deletions = map Some names.
Proof.
  induction deletions as [|q ps IH]; intros H; simpl.
  - now exists [].
  - destruct IH as [ns Hns]; [intros p Hp; apply H; now right|].
    destruct (typesDirectoryName q) as [n|] eqn:Eq.
    + exists (n :: ns). simpl. now rewrite Hns.
    + exfalso. apply (H q); [now left | exact Eq].
Qed.

(** The loop of lines 177-185 sorts each package by its verdict. *)
Lemma getNotNeededPackages_fold (allPackages : AllPackages)
  (ps : list string) (notNeededs : list NotNeededPackage.t)
  (errs : list string) :
  fold_left (getNotNeededPackages_step allPackages) ps (notNeededs, errs)
  = (notNeededs ++ flat_map (verdict_accepted allPackages) ps,
     errs ++ flat_map (verdict_error allPackages) ps).
Proof.
  revert notNeededs errs.
  induction ps as [|p ps IH]; simpl; intros notNeededs errs.
  - now rewrite !app_nil_r.
  - unfold verdict_accepted at 1, verdict_error at 1, verdict.
    destruct (getNotNeededPackage allPackages p) as [n|]; simpl.
    + destruct (hasTypingFor allPackages _); simpl;
        rewrite IH, <- ?app_assoc; reflexivity.
    + rewrite andb_false_r. apply IH.
Qed.

(** The value the check returns when every directory name is defined. *)
Lemma getNotNeededPackages_defined (allPackages : AllPackages)
  (deletions : list PackageId) (names : list string) :
  map typesDirectoryName deletions = map Some names ->
  getNotNeededPackages allPackages deletions
  = ([Call_getNotNeededPackages deletions],
     Returned
       match flat_map (verdict_error allPackages) (set_from names) with
       | [] =>
           NoErrors (flat_map (verdict_accepted allPackages) (set_from names))
       | e :: es => HasErrors (e :: es)
       end).
Proof.
  intros H.
  unfold getNotNeededPackages, invoke, bind, ret. simpl.
  rewrite (assertDefined_all _ _ H).
  rewrite getNotNeededPackages_fold. simpl.
  now destruct (flat_map (verdict_error allPackages) (set_from names)).
Qed.

(** The calls of the consistency check are calls of the deprecation
    checks. *)
Lemma getNotNeededPackages_calls (allPackages : AllPackages)
  (deletions : list PackageId) :
  forallb is_validator_call (fst (getNotNeededPackages allPackages deletions))
  = true.
Proof.
  unfold getNotNeededPackages, invoke, bind, ret. simpl.
  destruct (map_throwing _ deletions) as [names|e]; simpl; [|reflexivity].
  now destruct (fold_left _ _ _).
Qed.

(** C7: on deletions whose directory names are all defined, the check
    visits each deleted directory name once; a package that is listed as
    deprecated and still has declarations yields the error of line 181, a
    package that is listed as deprecated and has none left joins the
    validated list, and any other package is skipped.  The result is the
    errors when there are any, and the validated list otherwise. *)
Theorem getNotNeededPackages_trichotomy (allPackages : AllPackages)
  (deletions : list PackageId) (names : list string) :
  map typesDirectoryName deletions = map Some names ->
  NoDup (set_from names)
  /\ (forall p : string, In p (set_from names) <-> In p names)
  /\ getNotNeededPackages allPackages deletions
     = ([Call_getNotNeededPackages deletions],
        Returned
          match flat_map (verdict_error allPackages) (set_from names) with
          | [] =>
              NoErrors
                (flat_map (verdict_accepted allPackages) (set_from names))
          | e :: es => HasErrors (e :: es)
          end).
Proof.
  intros H. destruct (set_from_spec names) as [S1 S2].
  split; [exact S1|]. split; [exact S2|].
  now apply getNotNeededPackages_defined.
Qed.

(** C10: the check throws when a deletion has an undefined
    [typesDirectoryName]; when every deletion has a defined one, the
    assertion does not fire and the check returns a value. *)
Theorem getNotNeededPackages_assertion (allPackages : AllPackages)
  (deletions : list PackageId) :
  ((exists p : PackageId, In p deletions /\ typesDirectoryName p = None) ->
   exists e : JsError,
     snd (getNotNeededPackages allPackages deletions) = Thrown e)
  /\ ((forall p : PackageId,
         In p deletions -> typesDirectoryName p <> None) ->
      exists v : OrErrors (list NotNeededPackage.t),
        snd (getNotNeededPackages allPackages deletions) = Returned v).
Proof.
  split.
  - intros H. destruct (assertDefined_some deletions H) as [e He].
    exists e. unfold getNotNeededPackages, invoke, bind, ret. simpl.
    now rewrite He.
  - intros H. destruct (defined_names deletions H) as [names Hn].
    rewrite (getNotNeededPackages_defined allPackages deletions names Hn).
    eexists; reflexivity.
Qed.

Lemma getNotNeededPackages_trichotomy_witness :
  getNotNeededPackages Scenario.index
    [mkPackageId (Some "bar") Star;
     mkPackageId (Some "foo") Star;
     mkPackageId (Some "bar") (Exact (mkVersion 2 None));
     mkPackageId (Some "baz") Star]
  = ([Call_getNotNeededPackages
        [mkPackageId (Some "bar") Star;
         mkPackageId (Some "foo") Star;
         mkPackageId (Some "bar") (Exact (mkVersion 2 None));
         mkPackageId (Some "baz") Star]],
     Returned (HasErrors [delete_all_files "baz"]))
  /\ getNotNeededPackages Scenario.index
       [mkPackageId (Some "bar") Star;
        mkPackageId (Some "foo") Star;
        mkPackageId (Some "bar") (Exact (mkVersion 2 None))]
     = ([Call_getNotNeededPackages
           [mkPackageId (Some "bar") Star;
            mkPackageId (Some "foo") Star;
            mkPackageId (Some "bar") (Exact (mkVersion 2 None))]],
        Returned (NoErrors [Scenario.bar])).
Proof.
  split.
  - apply (getNotNeededPackages_trichotomy Scenario.index _
             ["bar"; "foo"; "bar"; "baz"]).
    reflexivity.
  - apply (getNotNeededPackages_trichotomy Scenario.index _
             ["bar"; "foo"; "bar"]).
    reflexivity.
Defined.

Lemma getNotNeededPackages_assertion_witness :
  (exists e : JsError,
     snd (getNotNeededPackages Scenario.index
            [mkPackageId (Some "bar") Star; mkPackageId None Star])
     = Thrown e)
  /\ (exists v : OrErrors (list NotNeededPackage.t),
        snd (getNotNeededPackages Scenario.index
               [mkPackageId (Some "bar") Star])
        = Returned v).
Proof.
  split.
  - apply (proj1 (getNotNeededPackages_assertion Scenario.index
                    [mkPackageId (Some "bar") Star; mkPackageId None Star])).
    exists (mkPackageId None Star). split; [right; left|]; reflexivity.
  - apply (proj2 (getNotNeededPackages_assertion Scenario.index
                    [mkPackageId (Some "bar") Star])).
    intros p [<-|[]]. discriminate.
Defined.

(* ================================================================= *)
(** ** The pipeline [getAffectedPackagesFromDiff] *)

Section PipelineClaims.
Variable getDependencyFromFile : string -> option PackageId.
Variable formatTypingVersion : DirectoryParsedTypingVersion -> string.
Variable cacheDir : string.
Variable pacote_manifest : string -> string -> outcome Manifest.t.
Variable semver_gt : string -> string -> bool.
Variable gitDiff : string -> outcome (list GitDiff).
Variable getAffectedPackages :
  AllPackages -> list PackageId -> list PackageId -> string ->
  outcome (OrErrors PreparePackagesResult).

Local Notation "'run'" :=
  (getAffectedPackagesFromDiff getDependencyFromFile formatTypingVersion
     cacheDir pacote_manifest
     semver_gt gitDiff getAffectedPackages).
Local Notation "'classify'" :=
  (gitChanges getDependencyFromFile formatTypingVersion).
Local Notation "'validate'" :=
  (deprecationErrors cacheDir pacote_manifest semver_gt).
Local Notation "'check'" :=
  (checkNotNeededPackage cacheDir pacote_manifest semver_gt).
Local Notation "'checkAll'" :=
  (checkNotNeededPackages cacheDir pacote_manifest semver_gt).

(** The errors a registry check returned, none when it threw. *)
Local Notation "'returned_errors' d" :=
  (match snd (check d) with Returned es => es | Thrown _ => [] end)
  (at level 10).

Lemma checkNotNeededPackages_calls (deleteds : list NotNeededPackage.t)
  (errs : list string) :
  forallb is_validator_call (fst (checkAll deleteds errs)) = true.
Proof.
  revert errs. induction deleteds as [|d ds IH]; simpl; intros errs.
  - reflexivity.
  - unfold bind.
    pose proof (checkNotNeededPackage_calls cacheDir pacote_manifest
                  semver_gt d) as Hd.
    destruct (check d) as [t [es|e]]; simpl in *; [|exact Hd].
    specialize (IH (errs ++ es)).
    destruct (checkAll ds (errs ++ es)) as [t' r]; simpl in *.
    rewrite forallb_app, Hd, IH. reflexivity.
Qed.

(** The loop of lines 117-119 appends the errors of each registry check,
    in order, when none of the checks throws. *)
Lemma checkNotNeededPackages_merge (deleteds : list NotNeededPackage.t)
  (errs : list string) :
  (forall d : NotNeededPackage.t, In d deleteds ->
     exists es : list string, snd (check d) = Returned es) ->
  snd (checkAll deleteds errs)
  = Returned (errs ++ flat_map (fun d => returned_errors d) deleteds).
Proof.
  revert errs. induction deleteds as [|d ds IH]; simpl; intros errs H.
  - now rewrite app_nil_r.
  - destruct (H d (or_introl eq_refl)) as [es Hes].
    unfold bind. rewrite Hes.
    destruct (check d) as [t r]; simpl in *. subst r.
    specialize (IH (errs ++ es) (fun d' Hd' => H d' (or_intror Hd'))).
    destruct (checkAll ds (errs ++ es)) as [t' r']; simpl in *.
    now rewrite IH, app_assoc.
Qed.

Lemma deprecationErrors_calls (allPackages : AllPackages)
  (diffs : list GitDiff) (deletions : list PackageId) :
  forallb is_validator_call (fst (validate allPackages diffs deletions))
  = true.
Proof.
  unfold deprecationErrors.
  destruct (existsb _ diffs); [|reflexivity].
  unfold bind.
  pose proof (getNotNeededPackages_calls allPackages deletions) as Hg.
  destruct (getNotNeededPackages allPackages deletions) as [t [[es|ds]|e]];
    simpl in *; [now rewrite app_nil_r | | exact Hg].
  pose proof (checkNotNeededPackages_calls ds []) as Hc.
  destruct (checkAll ds []) as [t' r]; simpl in *.
  now rewrite forallb_app, Hg, Hc.
Qed.

(** C3 (amended): when [gitChanges] returns errors, the run returns them
    having called the diff source only: neither the deprecation checks nor
    the resolver is invoked.  When [gitChanges] succeeds, the deprecation
    checks run first and their errors are collected into one list (the
    errors of the consistency check, or else those of every registry check,
    in order); the resolver is called once, after them.  When the resolver
    returns and the list is not empty, the run returns the list and drops
    what the resolver returned; when the resolver throws, the run throws its
    error, whatever the list holds. *)
Theorem getAffectedPackagesFromDiff_errors_first
  (allPackages : AllPackages) (path : string) (diffs : list GitDiff) :
  gitDiff path = Returned diffs ->
  (forall es : list string,
     classify diffs = Errors es ->
     run allPackages path = ([Call_gitDiff path], Returned (HasErrors es)))
  /\ (forall (dels adds : list PackageId) (calls : list Call)
        (errs : list string) (affected : OrErrors PreparePackagesResult),
        classify diffs = Changes dels adds ->
        validate allPackages diffs dels = (calls, Returned errs) ->
        errs <> [] ->
        getAffectedPackages allPackages dels adds path = Returned affected ->
        run allPackages path
        = (Call_gitDiff path :: calls ++ [Call_getAffectedPackages dels adds],
           Returned (HasErrors errs))
        /\ forallb is_validator_call calls = true)
  /\ (forall (dels : list PackageId) (es : list string),
        existsb (fun d => String.eqb (file d) "notNeededPackages.json") diffs
        = true ->
        snd (getNotNeededPackages allPackages dels) = Returned (HasErrors es) ->
        snd (validate allPackages diffs dels) = Returned es)
  /\ (forall (dels : list PackageId) (ds : list NotNeededPackage.t),
        existsb (fun d => String.eqb (file d) "notNeededPackages.json") diffs
        = true ->
        snd (getNotNeededPackages allPackages dels) = Returned (NoErrors ds) ->
        (forall d : NotNeededPackage.t, In d ds ->
           exists es : list string, snd (check d) = Returned es) ->
        snd (validate allPackages diffs dels)
        = Returned (flat_map (fun d => returned_errors d) ds))
  /\ (forall (dels adds : list PackageId) (calls : list Call)
        (errs : list string) (e : JsError),
        classify diffs = Changes dels adds ->
        validate allPackages diffs dels = (calls, Returned errs) ->
        getAffectedPackages allPackages dels adds path = Thrown e ->
        run allPackages path
        = (Call_gitDiff path :: calls ++ [Call_getAffectedPackages dels adds],
           Thrown e)).
Proof.
  intros Hdiff. split; [|split; [|split; [|split]]].
  - intros es Hg.
    unfold getAffectedPackagesFromDiff, invoke, bind. rewrite Hdiff, Hg.
    reflexivity.
  - intros dels adds calls errs affected Hg Hv Hne Ha.
    split.
    + unfold getAffectedPackagesFromDiff, invoke, bind.
      rewrite Hdiff, Hg, Hv, Ha. simpl.
      destruct errs as [|e errs]; [congruence|]. simpl.
      rewrite ?app_nil_r. reflexivity.
    + pose proof (deprecationErrors_calls allPackages diffs dels) as Hc.
      now rewrite Hv in Hc.
  - intros dels es Hex Hn.
    unfold deprecationErrors. rewrite Hex. unfold bind.
    destruct (getNotNeededPackages allPackages dels) as [t r];
      simpl in *. subst r. reflexivity.
  - intros dels ds Hex Hn Hall.
    unfold deprecationErrors. rewrite Hex. unfold bind.
    destruct (getNotNeededPackages allPackages dels) as [t r];
      simpl in *. subst r.
    pose proof (checkNotNeededPackages_merge ds [] Hall) as Hm.
    destruct (checkAll ds []) as [t' r']; simpl in *. exact Hm.
  - intros dels adds calls errs e Hg Hv Ha.
    unfold getAffectedPackagesFromDiff, invoke, bind.
    rewrite Hdiff, Hg, Hv, Ha. reflexivity.
Qed.

End PipelineClaims.

Lemma getAffectedPackagesFromDiff_errors_first_witness :
  getAffectedPackagesFromDiff getDependencyFromFile formatTypingVersion
    Scenario.cacheDir Scenario.registry Semver.gt Scenario.gitDiff
    Scenario.getAffectedPackages Scenario.index "bad"
  = ([Call_gitDiff "bad"],
     Returned (HasErrors [unexpected_file (FileChange A "types/x.txt")]))
  /\ getAffectedPackagesFromDiff getDependencyFromFile formatTypingVersion
       Scenario.cacheDir Scenario.registry Semver.gt Scenario.gitDiff
       Scenario.getAffectedPackages Scenario.index "DefinitelyTyped"
     = (Call_gitDiff "DefinitelyTyped"
          :: [Call_getNotNeededPackages [mkPackageId (Some "bar") Star];
              Call_checkNotNeededPackage Scenario.bar;
              Call_manifest "lib-bar@2.0.0";
              Call_manifest "@types/bar"]
          ++ [Call_getAffectedPackages [mkPackageId (Some "bar") Star] []],
        Returned (HasErrors
          [must_be_newer Scenario.bar (Manifest.mk "2.1.0")])).
Proof.
  split.
  - apply (proj1 (getAffectedPackagesFromDiff_errors_first
                    getDependencyFromFile formatTypingVersion
                    Scenario.cacheDir Scenario.registry Semver.gt
                    Scenario.gitDiff Scenario.getAffectedPackages
                    Scenario.index "bad" [FileChange A "types/x.txt"]
                    eq_refl)).
    reflexivity.
  - apply (proj1 (proj2 (getAffectedPackagesFromDiff_errors_first
                    getDependencyFromFile formatTypingVersion
                    Scenario.cacheDir Scenario.registry Semver.gt
                    Scenario.gitDiff Scenario.getAffectedPackages
                    Scenario.index "DefinitelyTyped" Scenario.diffs
                    eq_refl))
             [mkPackageId (Some "bar") Star] []
             [Call_getNotNeededPackages [mkPackageId (Some "bar") Star];
              Call_checkNotNeededPackage Scenario.bar;
              Call_manifest "lib-bar@2.0.0";
              Call_manifest "@types/bar"]
             [must_be_newer Scenario.bar (Manifest.mk "2.1.0")]
             (NoErrors {| packageNames := ["bar"]; dependents := [] |}));
      try reflexivity.
    discriminate.
Defined.

(** C3, as stated, fails: the deprecation checks return an error for [bar],
    the resolver throws, and the run throws instead of returning the error
    list. *)
Lemma getAffectedPackagesFromDiff_errors_lost :
  ~ AsStated.errors_are_returned getDependencyFromFile formatTypingVersion
      Scenario.cacheDir Scenario.registry Semver.gt Scenario.gitDiff
      Scenario.failing_resolver Scenario.index "DefinitelyTyped".
Proof.
  intros H.
  specialize (H Scenario.diffs [mkPackageId (Some "bar") Star] []
                [Call_getNotNeededPackages [mkPackageId (Some "bar") Star];
                 Call_checkNotNeededPackage Scenario.bar;
                 Call_manifest "lib-bar@2.0.0";
                 Call_manifest "@types/bar"]
                [must_be_newer Scenario.bar (Manifest.mk "2.1.0")]
                eq_refl eq_refl eq_refl).
  assert (Hne : [must_be_newer Scenario.bar (Manifest.mk "2.1.0")] <> [])
    by discriminate.
  specialize (H Hne). vm_compute in H. discriminate H.
Qed.

(** C8, as stated, fails: [scripts/types/x.ts] is outside the package root,
    yet its addition is not ignored; it passes the test of line 73, the
    grammar rejects it and [gitChanges] returns an error for it. *)
Lemma gitChanges_outside_root_not_ignored :
  ~ AsStated.ignored_outside_root getDependencyFromFile formatTypingVersion
      [] [] (FileChange A "scripts/types/x.ts").
Proof.
  unfold AsStated.ignored_outside_root. intros H.
  specialize (H (or_intror eq_refl)). vm_compute in H. discriminate H.
Qed.

(* ================================================================= *)
(** ** Further properties of [gitChanges] *)

Section ClassifierMore.
Variable getDependencyFromFile : string -> option PackageId.
Variable formatTypingVersion : DirectoryParsedTypingVersion -> string.

Local Notation "'loop'" :=
  (gitChanges_loop getDependencyFromFile formatTypingVersion).
Local Notation "'classify'" :=
  (gitChanges getDependencyFromFile formatTypingVersion).
Local Notation "'deleted_by'" :=
  (deletion_writes getDependencyFromFile formatTypingVersion).
Local Notation "'added_by'" :=
  (addition_writes getDependencyFromFile formatTypingVersion).
Local Notation "'is_rejected'" := (rejected getDependencyFromFile).
Local Notation "'key_of'" := (key formatTypingVersion).

Lemma errors_of_gitChanges (diffs : list GitDiff) :
  errors_of (classify diffs)
  = map unexpected_file (filter is_rejected diffs).
Proof.
  unfold gitChanges, gitChanges_loop. rewrite fold_errors. simpl.
  now destruct (map unexpected_file (filter is_rejected diffs)).
Qed.

(** A result with the two collections holds the values of the two maps. *)
Lemma gitChanges_success (diffs : list GitDiff)
  (dels adds : list PackageId) :
  classify diffs = Changes dels adds ->
  dels = map_values (apply_writes (flat_map deleted_by diffs) [])
  /\ adds = map_values (apply_writes (flat_map added_by diffs) []).
Proof.
  unfold gitChanges, gitChanges_loop.
  rewrite fold_deletions, fold_additions. simpl.
  destruct (errors _); intros H; inversion H; subst. now split.
Qed.

(** In a map built by writes that store each identity under its own key,
    the keys of the values are the keys of the map. *)
Lemma keyed_values_keys (ws : list (string * PackageId)) :
  (forall kv, In kv ws -> fst kv = key_of (snd kv)) ->
  map key_of (map_values (apply_writes ws [])) = map_keys (apply_writes ws []).
Proof.
  intros Hk. unfold map_values, map_keys. rewrite map_map.
  apply map_ext_in. intros kv Hin.
  apply apply_writes_In in Hin. destruct Hin as [Hin|[]].
  symmetry. now apply Hk.
Qed.

Lemma deleted_by_keyed (diffs : list GitDiff) (kv : string * PackageId) :
  In kv (flat_map deleted_by diffs) -> fst kv = key_of (snd kv).
Proof.
  intros H. apply in_flat_map in H. destruct H as [d [_ H]].
  apply (writes_keyed getDependencyFromFile formatTypingVersion d kv). auto.
Qed.

Lemma added_by_keyed (diffs : list GitDiff) (kv : string * PackageId) :
  In kv (flat_map added_by diffs) -> fst kv = key_of (snd kv).
Proof.
  intros H. apply in_flat_map in H. destruct H as [d [_ H]].
  apply (writes_keyed getDependencyFromFile formatTypingVersion d kv). auto.
Qed.

(** A key that was written is a key of the map. *)
Lemma apply_writes_key_in {V : Type} (ws : list (string * V))
  (m : JsMap V) (k : string) :
  In k (map fst ws) \/ In k (map_keys m) -> In k (map_keys (apply_writes ws m)).
Proof.
  revert m. induction ws as [|[k0 v0] ws IH]; simpl; intros m H.
  - destruct H as [[]|H]; exact H.
  - apply IH. destruct H as [[<-|H]|H].
    + right. apply map_set_keys_in. now left.
    + now left.
    + right. apply map_set_keys_in. now right.
Qed.

(** X1: the structural errors of a concatenated diff are those of its two
    parts, in order. *)
Theorem gitChanges_errors_app (diffs1 diffs2 : list GitDiff) :
  errors_of (classify (diffs1 ++ diffs2))
  = errors_of (classify diffs1) ++ errors_of (classify diffs2).
Proof.
  rewrite !errors_of_gitChanges, filter_app, map_app. reflexivity.
Qed.

(** X2: [gitChanges] reports no identity of its own making.  Every returned
    deletion is the identity of the file of a [D] event or of the source of
    a rename, and every returned addition is the identity of the file of an
    [A] event or of the destination of a rename; the event is in the diff
    and its file passes the test of line 73. *)
Theorem gitChanges_provenance (diffs : list GitDiff)
  (dels adds : list PackageId) :
  classify diffs = Changes dels adds ->
  (forall p : PackageId, In p dels ->
     exists d : GitDiff,
       In d diffs /\ types_sep_test (file d) = true
       /\ ((status d = "D" /\ getDependencyFromFile (file d) = Some p)
           \/ (exists f source : string,
                 d = Rename f source
                 /\ getDependencyFromFile source = Some p)))
  /\ (forall p : PackageId, In p adds ->
        exists d : GitDiff,
          In d diffs /\ types_sep_test (file d) = true
          /\ (status d = "A" \/ status d = "R")
          /\ getDependencyFromFile (file d) = Some p).
Proof.
  intros H. destruct (gitChanges_success diffs dels adds H) as [-> ->].
  split; intros p Hp; unfold map_values in Hp;
    apply in_map_iff in Hp; destruct Hp as [[k p'] [Ep Hin]];
    simpl in Ep; subst p';
    apply apply_writes_In in Hin; destruct Hin as [Hin|[]];
    apply in_flat_map in Hin; destruct Hin as [d [Hd Hin]];
    exists d; (split; [exact Hd|]).
  - unfold deletion_writes, classified in Hin.
    destruct (types_sep_test (file d)); [|destruct Hin].
    split; [reflexivity|].
    destruct d as [[] f|f source]; simpl in *;
      destruct (getDependencyFromFile f) as [dep|]; simpl in *;
      try contradiction.
    + destruct Hin as [E|[]]. inversion E; subst. now left.
    + destruct (getDependencyFromFile source) as [srcDep|] eqn:Es;
        [|destruct Hin].
      destruct Hin as [E|[]]. inversion E; subst.
      right. exists f, source. now split.
  - unfold addition_writes, classified in Hin.
    destruct (types_sep_test (file d)); [|destruct Hin].
    split; [reflexivity|].
    destruct d as [[] f|f source]; simpl in *;
      destruct (getDependencyFromFile f) as [dep|]; simpl in *;
      try contradiction;
      destruct Hin as [E|[]]; inversion E; subst; auto.
Qed.

(** X3: the returned collections are deduplicated by composite key and
    lose no package: the keys of the deletions are pairwise distinct, so are
    those of the additions, and the key of every identity that an event
    records is the key of a returned identity. *)
Theorem gitChanges_keys (diffs : list GitDiff) (dels adds : list PackageId) :
  classify diffs = Changes dels adds ->
  NoDup (map key_of dels)
  /\ NoDup (map key_of adds)
  /\ (forall (d : GitDiff) (k : string) (p : PackageId),
        In d diffs -> In (k, p) (deleted_by d) -> In k (map key_of dels))
  /\ (forall (d : GitDiff) (k : string) (p : PackageId),
        In d diffs -> In (k, p) (added_by d) -> In k (map key_of adds)).
Proof.
  intros H. destruct (gitChanges_success diffs dels adds H) as [-> ->].
  rewrite !keyed_values_keys
    by (intros kv; first [apply deleted_by_keyed | apply added_by_keyed]).
  split; [apply apply_writes_NoDup; constructor|].
  split; [apply apply_writes_NoDup; constructor|].
  split; intros d k p Hd Hw; apply apply_writes_key_in; left;
    apply in_map_iff; exists (k, p); (split; [reflexivity|]);
    apply in_flat_map; exists d; now split.
Qed.

End ClassifierMore.

Lemma gitChanges_provenance_witness :
  exists d : GitDiff,
    In d [Rename "types/foo/v2/index.d.ts" "types/foo/index.d.ts"]
    /\ types_sep_test (file d) = true
    /\ ((status d = "D"
         /\ getDependencyFromFile (file d)
            = Some (mkPackageId (Some "foo") Star))
        \/ (exists f source : string,
              d = Rename f source
              /\ getDependencyFromFile source
                 = Some (mkPackageId (Some "foo") Star))).
Proof.
  apply (proj1 (gitChanges_provenance
                  getDependencyFromFile formatTypingVersion
                  [Rename "types/foo/v2/index.d.ts" "types/foo/index.d.ts"]
                  [mkPackageId (Some "foo") Star]
                  [mkPackageId (Some "foo") (Exact (mkVersion 2 None))]
                  eq_refl)
           (mkPackageId (Some "foo") Star)).
  left. reflexivity.
Defined.

Lemma gitChanges_keys_witness :
  NoDup (map (key formatTypingVersion)
           [mkPackageId (Some "foo") Star; mkPackageId (Some "bar") Star]).
Proof.
  apply (proj1 (gitChanges_keys
                  getDependencyFromFile formatTypingVersion
                  [FileChange D "types/foo/index.d.ts";
                   FileChange D "types/bar/index.d.ts";
                   FileChange D "types/foo/foo-tests.ts"]
                  [mkPackageId (Some "foo") Star;
                   mkPackageId (Some "bar") Star]
                  []
                  eq_refl)).
Defined.

(* ================================================================= *)
(** ** Further properties of the deprecation checks *)

Section RegistryMore.
Variable cacheDir : string.
Variable pacote_manifest : string -> string -> outcome Manifest.t.
Variable semver_gt : string -> string -> bool.

Local Notation "'check'" :=
  (checkNotNeededPackage cacheDir pacote_manifest semver_gt).
Local Notation "'replacement_spec' u" :=
  (NotNeededPackage.libraryName u ++ "@" ++ NotNeededPackage.version u)%string
  (at level 10).
Local Notation "'replacement_lookup' u" :=
  (pacote_manifest (replacement_spec u) cacheDir) (at level 10).
Local Notation "'typings_lookup' u" :=
  (pacote_manifest (NotNeededPackage.name u) cacheDir) (at level 10).

Ltac run_check :=
  unfold checkNotNeededPackage, manifest, invoke, Git.bind, catch, Git.ret,
    throw.

(** X4: the registry check accepts a record, returning no error, exactly
    when both lookups resolve and [semver.gt] places the record's version
    above the latest published version of the deprecated package. *)
Theorem checkNotNeededPackage_accepts (unneeded : NotNeededPackage.t) :
  snd (check unneeded) = Returned []
  <-> exists replacement typings : Manifest.t,
        replacement_lookup unneeded = Returned replacement
        /\ typings_lookup unneeded = Returned typings
        /\ semver_gt (NotNeededPackage.version unneeded)
             (Manifest.version typings) = true.
Proof.
  run_check.
  destruct (replacement_lookup unneeded) as [m|r1]; simpl.
  - destruct (typings_lookup unneeded) as [t|r2]; simpl.
    + destruct (semver_gt _ (Manifest.version t)) eqn:G; simpl.
      * split; [intros _; now exists m, t | reflexivity].
      * split; [discriminate|].
        intros (m' & t' & _ & E & G'). inversion E; subst. congruence.
    + split.
      * destruct (code_is r2 "E404"); discriminate.
      * intros (m' & t' & _ & E & _). discriminate.
  - split; [|intros (m' & t' & E & _); discriminate].
    destruct (code_is r1 "E404"); simpl;
      [|destruct (code_is r1 "ETARGET"); simpl; [|discriminate]];
      (destruct (typings_lookup unneeded) as [t|r2]; simpl;
       [destruct (negb _); discriminate
       |destruct (code_is r2 "E404"); discriminate]).
Qed.

(** X5: the registry check looks the replacement up first and then the
    deprecated package itself, each once; the second lookup is left out
    only when the first one ends in a rethrown error. *)
Theorem checkNotNeededPackage_lookups (unneeded : NotNeededPackage.t) :
  lookups (fst (check unneeded))
  = match replacement_lookup unneeded with
    | Returned _ =>
        [replacement_spec unneeded; NotNeededPackage.name unneeded]
    | Thrown reason =>
        if rethrown_by_replacement_lookup reason
        then [replacement_spec unneeded]
        else [replacement_spec unneeded; NotNeededPackage.name unneeded]
    end.
Proof.
  run_check. unfold rethrown_by_replacement_lookup.
  destruct (replacement_lookup unneeded) as [m|r1]; simpl.
  - destruct (typings_lookup unneeded) as [t|r2]; simpl.
    + now destruct (negb _).
    + now destruct (code_is r2 "E404").
  - destruct (code_is r1 "E404"); simpl;
      [|destruct (code_is r1 "ETARGET"); simpl; [|reflexivity]];
      (destruct (typings_lookup unneeded) as [t|r2]; simpl;
       [now destruct (negb _) | now destruct (code_is r2 "E404")]).
Qed.

(** X6: the registry check returns at most two errors; and when the
    deprecated package itself is not found, the versions are not compared:
    the errors are the one of the replacement lookup, if any, followed by
    the not-found message. *)
Theorem checkNotNeededPackage_typings_missing (unneeded : NotNeededPackage.t) :
  (forall errs : list string,
     snd (check unneeded) = Returned errs -> length errs <= 2)
  /\ (forall reason : JsError,
        typings_lookup unneeded = Thrown reason ->
        code_is reason "E404" = true ->
        survives rethrown_by_replacement_lookup (replacement_lookup unneeded) ->
        snd (check unneeded)
        = Returned
            (match replacement_lookup unneeded with
             | Returned _ => []
             | Thrown r =>
                 if code_is r "E404" then [no_npm_package unneeded]
                 else [version_not_on_npm unneeded]
             end ++ [types_package_not_found unneeded])).
Proof.
  split.
  - run_check. intros errs.
    destruct (replacement_lookup unneeded) as [m|r1]; simpl.
    + destruct (typings_lookup unneeded) as [t|r2]; simpl.
      * destruct (negb _); intros E; inversion E; simpl; lia.
      * destruct (code_is r2 "E404"); intros E; inversion E; simpl; lia.
    + destruct (code_is r1 "E404"); simpl;
        [|destruct (code_is r1 "ETARGET"); simpl; [|discriminate]];
        (destruct (typings_lookup unneeded) as [t|r2]; simpl;
         [destruct (negb _); intros E; inversion E; simpl; lia
         |destruct (code_is r2 "E404"); intros E; inversion E; simpl; lia]).
  - intros reason H2 C S. run_check.
    unfold survives, rethrown_by_replacement_lookup in S.
    destruct (replacement_lookup unneeded) as [m|r1]; simpl.
    + rewrite H2, C. reflexivity.
    + destruct (code_is r1 "E404"); simpl.
      * rewrite H2, C. reflexivity.
      * destruct (code_is r1 "ETARGET"); simpl; [|discriminate].
        rewrite H2, C. reflexivity.
Qed.

End RegistryMore.

Lemma checkNotNeededPackage_typings_missing_witness :
  snd (checkNotNeededPackage Scenario.cacheDir Scenario.registry Semver.gt
         (NotNeededPackage.mk "@types/gone" "lib-bar" "9.9.9"))
  = Returned
      [version_not_on_npm (NotNeededPackage.mk "@types/gone" "lib-bar" "9.9.9");
       types_package_not_found
         (NotNeededPackage.mk "@types/gone" "lib-bar" "9.9.9")].
Proof.
  apply (proj2 (checkNotNeededPackage_typings_missing
                  Scenario.cacheDir Scenario.registry Semver.gt
                  (NotNeededPackage.mk "@types/gone" "lib-bar" "9.9.9"))
           (mkError (Some "E404") "Not found"));
    reflexivity.
Defined.

Lemma string_app_length (a b : string) :
  String.length (a ++ b) = String.length a + String.length b.
Proof. induction a as [|c a IH]; simpl; [reflexivity | now rewrite IH]. Qed.

Lemma string_app_inv_head (a x y : string) :
  (a ++ x = a ++ y)%string -> x = y.
Proof.
  induction a as [|c a IH]; simpl; intros H; [exact H|].
  injection H as H. now apply IH.
Qed.

Lemma string_app_inv_tail (s x y : string) :
  (x ++ s = y ++ s)%string -> x = y.
Proof.
  revert y. induction x as [|c x IH]; intros [|d y] H; simpl in H.
  - reflexivity.
  - apply (f_equal String.length) in H. simpl in H.
    rewrite string_app_length in H. lia.
  - apply (f_equal String.length) in H. simpl in H.
    rewrite string_app_length in H. lia.
  - injection H as -> H. f_equal. now apply IH.
Qed.

(** The message of line 181 names its package. *)
Lemma delete_all_files_inj (p q : string) :
  delete_all_files p = delete_all_files q -> p = q.
Proof.
  unfold delete_all_files. intros H.
  apply string_app_inv_head in H. now apply string_app_inv_tail in H.
Qed.

Section ConsistencyMore.
Variable allPackages : AllPackages.

Lemma verdict_error_in (ps : list string) (e : string) :
  In e (flat_map (verdict_error allPackages) ps)
  <-> exists p : string,
        In p ps /\ e = delete_all_files p
        /\ verdict allPackages p = DeleteAllFilesFirst.
Proof.
  rewrite in_flat_map. unfold verdict_error. split.
  - intros [p [Hp He]].
    destruct (verdict allPackages p) eqn:V; simpl in He;
      [|destruct He|destruct He].
    destruct He as [<-|[]]. exists p. auto.
  - intros [p [Hp [-> V]]]. exists p. rewrite V. split; [exact Hp | now left].
Qed.

Lemma verdict_accepted_in (ps : list string) (n : NotNeededPackage.t) :
  In n (flat_map (verdict_accepted allPackages) ps)
  <-> exists p : string, In p ps /\ verdict allPackages p = Accepted n.
Proof.
  rewrite in_flat_map. unfold verdict_accepted. split.
  - intros [p [Hp Hn]].
    destruct (verdict allPackages p) eqn:V; simpl in Hn;
      [destruct Hn| |destruct Hn].
    destruct Hn as [<-|[]]. exists p. auto.
  - intros [p [Hp V]]. exists p. rewrite V. split; [exact Hp | now left].
Qed.

Lemma verdict_error_NoDup (ps : list string) :
  NoDup ps -> NoDup (flat_map (verdict_error allPackages) ps).
Proof.
  induction 1 as [|p ps Hnin Hnd IH]; simpl; [constructor|].
  unfold verdict_error at 1.
  destruct (verdict allPackages p); simpl; try exact IH.
  constructor; [|exact IH].
  intros Hin. apply verdict_error_in in Hin.
  destruct Hin as [q [Hq [E _]]].
  apply delete_all_files_inj in E. now subst q.
Qed.

(** X7: the consistency check reads the directory names of the deletions
    only, and each name once: two lists of deletions whose names form the
    same set, in the same order of first occurrence, get the same answer,
    whatever their versions and repetitions. *)
Theorem getNotNeededPackages_names_only
  (deletions1 deletions2 : list PackageId) (names1 names2 : list string) :
  map typesDirectoryName deletions1 = map Some names1 ->
  map typesDirectoryName deletions2 = map Some names2 ->
  set_from names1 = set_from names2 ->
  snd (getNotNeededPackages allPackages deletions1)
  = snd (getNotNeededPackages allPackages deletions2).
Proof.
  intros H1 H2 E.
  rewrite (getNotNeededPackages_defined allPackages _ _ H1).
  rewrite (getNotNeededPackages_defined allPackages _ _ H2).
  simpl. now rewrite E.
Qed.

(** X8: when the consistency check returns errors, every error names a
    deleted package that is listed as deprecated and still has declarations,
    and no package is reported twice. *)
Theorem getNotNeededPackages_errors_once
  (deletions : list PackageId) (errs : list string) :
  snd (getNotNeededPackages allPackages deletions) = Returned (HasErrors errs) ->
  errs <> []
  /\ NoDup errs
  /\ (forall e : string, In e errs ->
        exists p : string,
          In (Some p) (map typesDirectoryName deletions)
          /\ e = delete_all_files p
          /\ getNotNeededPackage allPackages p <> None
          /\ hasTypingFor allPackages
               {| typesDirectoryName := Some p; version := Star |} = true).
Proof.
  unfold getNotNeededPackages, invoke, Git.bind, Git.ret. simpl.
  destruct (map_throwing _ deletions) as [names|e] eqn:M; simpl;
    [|discriminate].
  rewrite getNotNeededPackages_fold. simpl.
  destruct (set_from_spec names) as [Hnd Hin].
  pose proof (verdict_error_NoDup _ Hnd) as Hnd'.
  pose proof (verdict_error_in (set_from names)) as Hch.
  destruct (flat_map (verdict_error allPackages) (set_from names))
    as [|e0 es]; intros E; inversion E; subst.
  split; [discriminate|]. split; [exact Hnd'|].
  intros e He. apply Hch in He. destruct He as [p [Hp [-> V]]].
  exists p. split; [|split; [reflexivity|]].
  - apply Hin in Hp. clear - M Hp.
    revert names M Hp. induction deletions as [|d ds IH]; simpl; intros names M Hp.
    + inversion M; subst. destruct Hp.
    + destruct (typesDirectoryName d) as [n|]; simpl in M; [|discriminate].
      destruct (map_throwing _ ds) as [ns|]; [|discriminate].
      inversion M; subst. destruct Hp as [->|Hp]; [now left|].
      right. now apply (IH ns).
  - unfold verdict in V.
    destruct (getNotNeededPackage allPackages p); [|discriminate].
    destruct (hasTypingFor allPackages _); [|discriminate].
    split; [discriminate | reflexivity].
Qed.

(** X9: when the consistency check returns a validated list, no deleted
    package that is listed as deprecated has declarations left, and the list
    holds the record of every such package and nothing else. *)
Theorem getNotNeededPackages_validated
  (deletions : list PackageId) (names : list string)
  (validated : list NotNeededPackage.t) :
  map typesDirectoryName deletions = map Some names ->
  snd (getNotNeededPackages allPackages deletions)
  = Returned (NoErrors validated) ->
  (forall (p : string) (n : NotNeededPackage.t),
     In p names -> getNotNeededPackage allPackages p = Some n ->
     hasTypingFor allPackages
       {| typesDirectoryName := Some p; version := Star |} = false
     /\ In n validated)
  /\ (forall n : NotNeededPackage.t, In n validated ->
        exists p : string,
          In p names /\ getNotNeededPackage allPackages p = Some n).
Proof.
  intros H. rewrite (getNotNeededPackages_defined allPackages _ _ H). simpl.
  destruct (set_from_spec names) as [_ Hin].
  pose proof (verdict_error_in (set_from names)) as Hch.
  destruct (flat_map (verdict_error allPackages) (set_from names))
    as [|e0 es]; intros E; inversion E; subst. clear E.
  split.
  - intros p n Hp Hn.
    assert (V : verdict allPackages p = Accepted n).
    { unfold verdict. rewrite Hn.
      destruct (hasTypingFor allPackages _) eqn:T; [|reflexivity].
      exfalso. apply (proj2 (Hch (delete_all_files p))).
      exists p. split; [now apply Hin|]. split; [reflexivity|].
      unfold verdict. now rewrite Hn, T. }
    split.
    + unfold verdict in V. rewrite Hn in V.
      now destruct (hasTypingFor allPackages _).
    + apply verdict_accepted_in. exists p. split; [now apply Hin | exact V].
  - intros n Hn. apply verdict_accepted_in in Hn.
    destruct Hn as [p [Hp V]]. exists p. split; [now apply Hin|].
    unfold verdict in V.
    destruct (getNotNeededPackage allPackages p) as [n'|]; [|discriminate].
    destruct (hasTypingFor allPackages _); [discriminate|].
    now inversion V.
Qed.

End ConsistencyMore.

Lemma getNotNeededPackages_names_only_witness :
  snd (getNotNeededPackages Scenario.index
         [mkPackageId (Some "bar") Star;
          mkPackageId (Some "bar") (Exact (mkVersion 2 None));
          mkPackageId (Some "foo") Star;
          mkPackageId (Some "bar") Star])
  = snd (getNotNeededPackages Scenario.index
           [mkPackageId (Some "bar") (Exact (mkVersion 3 None));
            mkPackageId (Some "foo") (Exact (mkVersion 1 None))]).
Proof.
  apply (getNotNeededPackages_names_only Scenario.index _ _
           ["bar"; "bar"; "foo"; "bar"] ["bar"; "foo"]);
    reflexivity.
Defined.

Lemma getNotNeededPackages_errors_once_witness :
  [delete_all_files "baz"] <> []
  /\ NoDup [delete_all_files "baz"]
  /\ (forall e : string, In e [delete_all_files "baz"] ->
        exists p : string,
          In (Some p)
            (map typesDirectoryName
               [mkPackageId (Some "baz") Star;
                mkPackageId (Some "bar") Star;
                mkPackageId (Some "baz") (Exact (mkVersion 1 None))])
          /\ e = delete_all_files p
          /\ getNotNeededPackage Scenario.index p <> None
          /\ hasTypingFor Scenario.index
               {| typesDirectoryName := Some p; version := Star |} = true).
Proof.
  apply (getNotNeededPackages_errors_once Scenario.index
           [mkPackageId (Some "baz") Star;
            mkPackageId (Some "bar") Star;
            mkPackageId (Some "baz") (Exact (mkVersion 1 None))]).
  reflexivity.
Defined.

Lemma getNotNeededPackages_validated_witness :
  hasTypingFor Scenario.index
    {| typesDirectoryName := Some "bar"; version := Star |} = false
  /\ In Scenario.bar [Scenario.bar].
Proof.
  apply (proj1 (getNotNeededPackages_validated Scenario.index
                  [mkPackageId (Some "bar") Star;
                   mkPackageId (Some "foo") Star]
                  ["bar"; "foo"] [Scenario.bar] eq_refl eq_refl)
           "bar" Scenario.bar).
  - left. reflexivity.
  - reflexivity.
Defined.

(* ================================================================= *)
(** ** Further properties of [getAffectedPackagesFromDiff] *)

Section PipelineMore.
Variable getDependencyFromFile : string -> option PackageId.
Variable formatTypingVersion : DirectoryParsedTypingVersion -> string.
Variable cacheDir : string.
Variable pacote_manifest : string -> string -> outcome Manifest.t.
Variable semver_gt : string -> string -> bool.
Variable gitDiff : string -> outcome (list GitDiff).
Variable getAffectedPackages :
  AllPackages -> list PackageId -> list PackageId -> string ->
  outcome (OrErrors PreparePackagesResult).

Local Notation "'run'" :=
  (getAffectedPackagesFromDiff getDependencyFromFile formatTypingVersion
     cacheDir pacote_manifest semver_gt gitDiff getAffectedPackages).
Local Notation "'classify'" :=
  (gitChanges getDependencyFromFile formatTypingVersion).
Local Notation "'validate'" :=
  (deprecationErrors cacheDir pacote_manifest semver_gt).
Local Notation "'names_manifest'" :=
  (existsb (fun d => String.eqb (file d) "notNeededPackages.json")).




(** X12: the resolver is called even when the deprecation checks returned
    errors, and when it throws, the run throws its error: the collected
    errors are not returned. *)
Theorem getAffectedPackagesFromDiff_resolver_throws
  (allPackages : AllPackages) (path : string)
  (diffs : list GitDiff) (dels adds : list PackageId)
  (calls : list Call) (errs : list string) (e : JsError) :
  gitDiff path = Returned diffs ->
  classify diffs = Changes dels adds ->
  validate allPackages diffs dels = (calls, Returned errs) ->
  getAffectedPackages allPackages dels adds path = Thrown e ->
  run allPackages path
  = (Call_gitDiff path :: calls ++ [Call_getAffectedPackages dels adds],
     Thrown e).
Proof.
  intros Hd Hg Hv Ha.
  unfold getAffectedPackagesFromDiff, invoke, Git.bind.
  rewrite Hd, Hg, Hv, Ha. reflexivity.
Qed.

(** X13: when the consistency check reports errors, the registry is not
    consulted at all: these errors are the errors of the deprecation checks
    and no lookup is made. *)
Theorem deprecationErrors_no_lookup
  (allPackages : AllPackages) (diffs : list GitDiff)
  (dels : list PackageId) (es : list string) :
  names_manifest diffs = true ->
  snd (getNotNeededPackages allPackages dels) = Returned (HasErrors es) ->
  validate allPackages diffs dels
  = ([Call_getNotNeededPackages dels], Returned es).
Proof.
  intros Hn Hg. unfold deprecationErrors. rewrite Hn.
  unfold getNotNeededPackages, invoke, Git.bind, Git.ret in *. simpl in *.
  destruct (map_throwing _ dels) as [names|e]; simpl in *; [|discriminate].
  destruct (fold_left _ _ _) as [nn errs]. simpl in *.
  inversion Hg as [Hg']. destruct errs; inversion Hg'. reflexivity.
Qed.

(** X14: the run returns the resolver's result in one case only: the diff
    source returned, [gitChanges] reported no error, the deprecation checks
    returned no error, and the resolver returned a result that is not an
    error list. *)
Theorem getAffectedPackagesFromDiff_success
  (allPackages : AllPackages) (path : string) (a : PreparePackagesResult) :
  snd (run allPackages path) = Returned (NoErrors a)
  <-> exists (diffs : list GitDiff) (dels adds : list PackageId)
        (calls : list Call),
        gitDiff path = Returned diffs
        /\ classify diffs = Changes dels adds
        /\ validate allPackages diffs dels = (calls, Returned [])
        /\ getAffectedPackages allPackages dels adds path
           = Returned (NoErrors a).
Proof.
  unfold getAffectedPackagesFromDiff, invoke, Git.bind.
  split.
  - destruct (gitDiff path) as [diffs|e]; simpl; [|discriminate].
    destruct (classify diffs) as [es|dels adds] eqn:Hg; simpl;
      [discriminate|].
    destruct (validate allPackages diffs dels) as [calls [errs|e]] eqn:Hv;
      simpl; [|discriminate].
    destruct (getAffectedPackages allPackages dels adds path)
      as [affected|e] eqn:Ha; simpl; [|discriminate].
    destruct errs as [|e0 errs]; simpl; [|discriminate].
    destruct affected as [es|a']; simpl; [discriminate|].
    intros E. inversion E; subst.
    exists diffs, dels, adds, calls. auto.
  - intros (diffs & dels & adds & calls & Hd & Hg & Hv & Ha).
    rewrite Hd. simpl. rewrite Hg, Hv, Ha. reflexivity.
Qed.

End PipelineMore.



Lemma getAffectedPackagesFromDiff_resolver_throws_witness :
  getAffectedPackagesFromDiff getDependencyFromFile formatTypingVersion
    Scenario.cacheDir Scenario.registry Semver.gt Scenario.gitDiff
    Scenario.failing_resolver Scenario.index "DefinitelyTyped"
  = (Call_gitDiff "DefinitelyTyped"
       :: [Call_getNotNeededPackages [mkPackageId (Some "bar") Star];
           Call_checkNotNeededPackage Scenario.bar;
           Call_manifest "lib-bar@2.0.0";
           Call_manifest "@types/bar"]
       ++ [Call_getAffectedPackages [mkPackageId (Some "bar") Star] []],
     Thrown (Error "pnpm failed")).
Proof.
  apply (getAffectedPackagesFromDiff_resolver_throws
           getDependencyFromFile formatTypingVersion
           Scenario.cacheDir Scenario.registry Semver.gt
           Scenario.gitDiff Scenario.failing_resolver
           Scenario.index "DefinitelyTyped" Scenario.diffs
           [mkPackageId (Some "bar") Star] []
           [Call_getNotNeededPackages [mkPackageId (Some "bar") Star];
            Call_checkNotNeededPackage Scenario.bar;
            Call_manifest "lib-bar@2.0.0";
            Call_manifest "@types/bar"]
           [must_be_newer Scenario.bar (Manifest.mk "2.1.0")]);
    reflexivity.
Defined.

Lemma deprecationErrors_no_lookup_witness :
  deprecationErrors Scenario.cacheDir Scenario.registry Semver.gt
    Scenario.index Scenario.diffs
    [mkPackageId (Some "bar") Star; mkPackageId (Some "baz") Star]
  = ([Call_getNotNeededPackages
        [mkPackageId (Some "bar") Star; mkPackageId (Some "baz") Star]],
     Returned [delete_all_files "baz"]).
Proof.
  apply (deprecationErrors_no_lookup
           Scenario.cacheDir Scenario.registry Semver.gt
           Scenario.index Scenario.diffs);
    reflexivity.
Defined.

(* ================================================================= *)
(** ** The diff source [gitDiff] *)

Import DiffSource.

Lemma no_space_app (a b : string) :
  no_space (a ++ b) = no_space a && no_space b.
Proof.
  induction a as [|c a IH]; simpl; [reflexivity|].
  now rewrite IH, andb_assoc.
Qed.

(** A piece that runs to the end of the line. *)
Lemma split_spaces_plain (a : string) :
  no_space a = true -> split_spaces_from false a = [a].
Proof.
  induction a as [|c a IH]; simpl; intros H; [reflexivity|].
  apply andb_true_iff in H. destruct H as [Hc Ha].
  apply negb_true_iff in Hc. rewrite Hc, (IH Ha). reflexivity.
Qed.

(** A piece that ends at a white space. *)
Lemma split_spaces_piece (a : string) (c : ascii) (rest : string) :
  no_space a = true -> is_space c = true ->
  split_spaces_from false (a ++ String c rest)
  = a :: split_spaces_from true rest.
Proof.
  intros Ha Hc. induction a as [|x a IH]; simpl.
  - now rewrite Hc.
  - simpl in Ha. apply andb_true_iff in Ha. destruct Ha as [Hx Ha].
    apply negb_true_iff in Hx. rewrite Hx, (IH Ha). reflexivity.
Qed.

(** After a run of white space, a piece starts at the next character. *)
Lemma split_spaces_resume (s : string) :
  match s with
  | EmptyString => True
  | String c _ => is_space c = false
  end ->
  split_spaces_from true s = split_spaces_from false s.
Proof. destruct s as [|c s]; simpl; [reflexivity|]. now intros ->. Qed.

Lemma plain_path_starts (p rest : string) :
  plain_path p = true ->
  match (p ++ rest)%string with
  | EmptyString => True
  | String c _ => is_space c = false
  end.
Proof.
  unfold plain_path. destruct p as [|c p]; simpl; [discriminate|].
  intros H. apply andb_true_iff in H. destruct H as [H _].
  now apply negb_true_iff in H.
Qed.

Lemma plain_path_head (p : string) :
  plain_path p = true ->
  match p with
  | EmptyString => True
  | String c _ => is_space c = false
  end.
Proof.
  unfold plain_path. destruct p as [|c p]; simpl; [discriminate|].
  intros H. apply andb_true_iff in H. destruct H as [H _].
  now apply negb_true_iff in H.
Qed.

Lemma plain_path_no_space (p : string) :
  plain_path p = true -> no_space p = true.
Proof. unfold plain_path. intros H. now apply andb_true_iff in H. Qed.

Lemma trimEnd_plain (s : string) : no_space s = true -> trimEnd s = s.
Proof.
  induction s as [|c s IH]; simpl; intros H; [reflexivity|].
  apply andb_true_iff in H. destruct H as [Hc Hs].
  apply negb_true_iff in Hc. rewrite (IH Hs), Hc. now destruct s.
Qed.

Lemma trim_plain (s : string) : no_space s = true -> trim s = s.
Proof.
  intros H. unfold trim.
  assert (E : trimStart s = s).
  { destruct s as [|c s]; simpl in *; [reflexivity|].
    apply andb_true_iff in H. destruct H as [Hc _].
    apply negb_true_iff in Hc. now rewrite Hc. }
  rewrite E. now apply trimEnd_plain.
Qed.

(** Characters that git prints as they are, digits and ASCII characters
    that are not white space are not white space for [\s] either. *)
Lemma all_chars_no_space (p : ascii -> bool) (s : string) :
  (forall c : ascii, p c = true -> is_space c = false) ->
  all_chars p s = true -> no_space s = true.
Proof.
  intros Hp. induction s as [|c s IH]; simpl; intros H; [reflexivity|].
  apply andb_true_iff in H. destruct H as [Hc Hs].
  now rewrite (Hp c Hc), (IH Hs).
Qed.

Lemma raw_char_not_space (c : ascii) : raw_char c = true -> is_space c = false.
Proof.
  destruct c as [[] [] [] [] [] [] [] []]; intros H;
    first [reflexivity | discriminate H].
Qed.

Lemma digit_not_space (c : ascii) :
  Nat.leb 48 (nat_of_ascii c) && Nat.leb (nat_of_ascii c) 57 = true ->
  is_space c = false.
Proof.
  destruct c as [[] [] [] [] [] [] [] []]; intros H;
    first [reflexivity | discriminate H].
Qed.

Lemma raw_path_plain (p : string) : raw_path p = true -> plain_path p = true.
Proof.
  unfold raw_path, plain_path. intros H.
  apply andb_true_iff in H. destruct H as [Hne Hc]. rewrite Hne. simpl.
  apply (all_chars_no_space raw_char); [apply raw_char_not_space | exact Hc].
Qed.

Lemma raw_paths_plain (d : GitDiff) : raw_paths d = true -> plain_paths d = true.
Proof.
  destruct d as [st f|f source]; simpl; [apply raw_path_plain|].
  intros H. apply andb_true_iff in H. destruct H as [Hf Hs].
  now rewrite (raw_path_plain f Hf), (raw_path_plain source Hs).
Qed.

Lemma digits_no_space (score : string) :
  digits score = true -> no_space score = true.
Proof. apply all_chars_no_space. apply digit_not_space. Qed.

Lemma ascii_no_space_no_space (s : string) :
  ascii_no_space s = true -> no_space s = true.
Proof.
  apply all_chars_no_space. intros c H.
  apply andb_true_iff in H. destruct H as [_ H]. now apply negb_true_iff in H.
Qed.

Lemma parseLine_name_status (score : string) (d : GitDiff) :
  no_space score = true ->
  plain_paths d = true ->
  exists e : DiffEntry,
    parseLine (name_status_line score d) = Returned e
    /\ asGitDiff e = Some d.
Proof.
  intros Hs Hp. unfold parseLine, split_spaces.
  destruct d as [st f|f source]; simpl in Hp.
  - assert (E : split_spaces_from false (name_status_line score (FileChange st f))
                = [status (FileChange st f); f]).
    { unfold name_status_line, tab. cbn [append].
      rewrite split_spaces_piece by (destruct st; reflexivity).
      rewrite split_spaces_resume
        by (now apply plain_path_head).
      rewrite split_spaces_plain by (now apply plain_path_no_space).
      reflexivity. }
    rewrite E. apply plain_path_no_space in Hp.
    destruct st; simpl; rewrite (trim_plain f Hp);
      eexists; (split; [reflexivity|]); reflexivity.
  - apply andb_true_iff in Hp. destruct Hp as [Hf Hsrc].
    assert (E : split_spaces_from false (name_status_line score (Rename f source))
                = [("R" ++ score)%string; source; f]).
    { unfold name_status_line, tab.
      change ("R" ++ score ++ String (ascii_of_nat 9) "" ++ source
                ++ String (ascii_of_nat 9) "" ++ f)%string
        with (("R" ++ score) ++ String (ascii_of_nat 9)
                (source ++ String (ascii_of_nat 9) f))%string.
      rewrite split_spaces_piece by (simpl; auto).
      rewrite split_spaces_resume by (now apply plain_path_starts).
      rewrite split_spaces_piece
        by (try apply plain_path_no_space; auto).
      rewrite split_spaces_resume
        by (now apply plain_path_head).
      rewrite split_spaces_plain by (now apply plain_path_no_space).
      reflexivity. }
    rewrite E. simpl.
    apply plain_path_no_space in Hf, Hsrc.
    rewrite (trim_plain f Hf), (trim_plain source Hsrc).
    eexists; split; reflexivity.
Qed.

(** X15: the line parser inverts the format of [git diff --name-status]
    for the paths git prints as they are and that hold no space (printable
    ASCII without space, double quote and backslash): the line of an event
    is parsed into the entry of that event, a rename with its destination as
    [file] and its origin as [source], whatever its similarity score. *)
Theorem parseLine_round_trip (score : string) (d : GitDiff) :
  digits score = true ->
  raw_paths d = true ->
  exists e : DiffEntry,
    parseLine (name_status_line score d) = Returned e
    /\ asGitDiff e = Some d.
Proof.
  intros Hs Hp.
  apply digits_no_space in Hs. apply raw_paths_plain in Hp.
  destruct (parseLine_name_status score d Hs Hp) as [e [Hparse Htyped]].
  exists e. split; [exact Hparse | exact Htyped].
Qed.

(** A path is cut at the white space that follows its first piece. *)
Lemma parseLine_cut_at (score : string) (st : ADM)
  (a : string) (c : ascii) (b : string) :
  plain_path a = true ->
  is_space c = true ->
  parseLine (name_status_line score (FileChange st (a ++ String c b)))
  = Returned (mkEntry (status (FileChange st "")) a None).
Proof.
  intros Ha Hc. unfold parseLine, split_spaces.
  assert (E : split_spaces_from false
                (name_status_line score (FileChange st (a ++ String c b)))
              = status (FileChange st "") :: a :: split_spaces_from true b).
  { unfold name_status_line, tab. cbn [append].
    rewrite split_spaces_piece by (destruct st; reflexivity).
    rewrite split_spaces_resume by (now apply plain_path_starts).
    rewrite split_spaces_piece
      by (try apply plain_path_no_space; auto).
    destruct st; reflexivity. }
  rewrite E. apply plain_path_no_space in Ha.
  destruct st; simpl; rewrite (trim_plain a Ha); reflexivity.
Qed.

(** X16: a path with a space in it is cut.  For a path that git prints as
    it is (printable ASCII without double quote and backslash) and that
    starts with a piece without space followed by a space, the entry of an
    added, deleted or modified file holds that first piece only. *)
Theorem parseLine_cuts_path (st : ADM) (a b : string) :
  raw_path a = true ->
  all_chars printed_raw b = true ->
  parseLine (name_status_line "" (FileChange st (a ++ " " ++ b)))
  = Returned (mkEntry (status (FileChange st "")) a None).
Proof.
  intros Ha _.
  change (a ++ " " ++ b)%string with (a ++ String " " b)%string.
  apply parseLine_cut_at; [now apply raw_path_plain | reflexivity].
Qed.

(** A line that is one piece has no path. *)
Lemma parseLine_one_piece (line : string) :
  no_space line = true -> parseLine line = Thrown TypeError.
Proof.
  intros H. unfold parseLine, split_spaces.
  rewrite (split_spaces_plain line H). simpl.
  now destruct line as [|[[] [] [] [] [] [] [] []] line].
Qed.

(** X17: a line of ASCII characters without white space, the empty line
    included, makes the parser throw: there is no path to read. *)
Theorem parseLine_single_field (line : string) :
  ascii_no_space line = true -> parseLine line = Thrown TypeError.
Proof.
  intros H. apply parseLine_one_piece. now apply ascii_no_space_no_space.
Qed.

Section GitDiffFacts.
Variable sourceBranch : string.
Variable sourceRemote : string.
Variable execAndThrowErrors : string -> list string -> string -> outcome string.
Variable definitelyTypedPath : string.

Local Notation "'git' args" :=
  (execAndThrowErrors "git" args definitelyTypedPath) (at level 10).
Local Notation "'the_diff'" :=
  (gitDiff sourceBranch sourceRemote execAndThrowErrors definitelyTypedPath).
Local Notation "'REV'" := (rev_parse sourceBranch).
Local Notation "'FETCH'" := (fetch sourceBranch sourceRemote).
Local Notation "'BRANCH'" := (branch sourceBranch).
Local Notation "'DIFF'" := (diff_branch sourceBranch).
Local Notation "'PREVIOUS'" := (diff_previous sourceBranch).

Ltac run_gitDiff :=
  unfold gitDiff, run, DiffSource.bind, DiffSource.ret, try_catch.

(** The clone is usable: the source branch is known, or it could be
    fetched and created. *)
Local Notation "'branch_available'" :=
  ((exists r : string, git REV = Returned r)
   \/ (exists (e : JsError) (r1 r2 : string),
         git REV = Thrown e
         /\ git FETCH = Returned r1
         /\ git BRANCH = Returned r2)).

(** The result of [gitDiff] once the source branch is available. *)
Lemma gitDiff_result :
  branch_available ->
  snd the_diff
  = match git DIFF with
    | Thrown e => Thrown e
    | Returned out =>
        if String.eqb (trim out) ""
        then match git PREVIOUS with
             | Thrown e => Thrown e
             | Returned out' =>
                 map_throwing parseLine (split (ascii_of_nat 10) (trim out'))
             end
        else map_throwing parseLine (split (ascii_of_nat 10) (trim out))
    end.
Proof.
  intros [[r Hr]|(e & r1 & r2 & Hr & Hf & Hb)]; run_gitDiff.
  - rewrite Hr. simpl.
    destruct (git DIFF) as [out|e1]; simpl; [|reflexivity].
    destruct (String.eqb (trim out) ""); simpl; [|reflexivity].
    destruct (git PREVIOUS) as [out'|e2]; reflexivity.
  - rewrite Hr. simpl. rewrite Hf. simpl. rewrite Hb. simpl.
    destruct (git DIFF) as [out|e1]; simpl; [|reflexivity].
    destruct (String.eqb (trim out) ""); simpl; [|reflexivity].
    destruct (git PREVIOUS) as [out'|e2]; reflexivity.
Qed.

(** X18: the commands [gitDiff] runs.  It verifies the source branch
    first.  When that succeeds it neither fetches nor creates a branch; when
    it fails it fetches the branch and creates it, and a failure of either
    ends the run before any diff.  It then diffs against the source branch,
    and against its first parent only when the first diff, trimmed, is
    empty. *)
Theorem gitDiff_commands :
  commands (fst the_diff)
  = let diffs :=
      match git DIFF with
      | Thrown _ => [("git", DIFF)]
      | Returned out =>
          if String.eqb (trim out) ""
          then [("git", DIFF); ("git", PREVIOUS)]
          else [("git", DIFF)]
      end in
    match git REV with
    | Returned _ => ("git", REV) :: diffs
    | Thrown _ =>
        match git FETCH with
        | Thrown _ => [("git", REV); ("git", FETCH)]
        | Returned _ =>
            match git BRANCH with
            | Thrown _ => [("git", REV); ("git", FETCH); ("git", BRANCH)]
            | Returned _ =>
                ("git", REV) :: ("git", FETCH) :: ("git", BRANCH) :: diffs
            end
        end
    end.
Proof.
  run_gitDiff.
  destruct (git REV) as [r|e]; simpl.
  - destruct (git DIFF) as [out|e1]; simpl; [|reflexivity].
    destruct (String.eqb (trim out) ""); simpl; [|reflexivity].
    destruct (git PREVIOUS) as [out'|e2]; reflexivity.
  - destruct (git FETCH) as [r1|e1]; simpl; [|reflexivity].
    destruct (git BRANCH) as [r2|e2]; simpl; [|reflexivity].
    destruct (git DIFF) as [out|e3]; simpl; [|reflexivity].
    destruct (String.eqb (trim out) ""); simpl; [|reflexivity].
    destruct (git PREVIOUS) as [out'|e4]; reflexivity.
Qed.

(** X19: when both diffs are empty once trimmed, [gitDiff] does not return
    an empty list: it throws, because the one empty line has no path. *)
Theorem gitDiff_empty_throws (out out' : string) :
  branch_available ->
  git DIFF = Returned out ->
  trim out = "" ->
  git PREVIOUS = Returned out' ->
  trim out' = "" ->
  snd the_diff = Thrown TypeError.
Proof.
  intros Hb H1 E1 H2 E2.
  rewrite (gitDiff_result Hb), H1, E1. simpl. rewrite H2, E2. reflexivity.
Qed.

End GitDiffFacts.

(** *** Reading back the output of [git diff --name-status] *)













Section GitDiffRoundTrip.
Variable sourceBranch : string.
Variable sourceRemote : string.
Variable execAndThrowErrors : string -> list string -> string -> outcome string.
Variable definitelyTypedPath : string.



End GitDiffRoundTrip.

Example raw_char_examples :
  raw_char "/" = true /\ raw_char "a" = true /\ raw_char "~" = true
  /\ raw_char " " = false /\ raw_char (ascii_of_nat 9) = false
  /\ raw_char (ascii_of_nat 34) = false /\ raw_char backslash = false
  /\ raw_char (ascii_of_nat 127) = false /\ raw_char (ascii_of_nat 160) = false
  /\ printed_raw " " = true.
Proof. repeat split. Qed.

Lemma parseLine_round_trip_witness :
  exists e : DiffEntry,
    parseLine
      (name_status_line "087"
         (Rename "types/foo/v2/index.d.ts" "types/foo/index.d.ts"))
    = Returned e
    /\ asGitDiff e
       = Some (Rename "types/foo/v2/index.d.ts" "types/foo/index.d.ts").
Proof.
  apply (parseLine_round_trip "087"
           (Rename "types/foo/v2/index.d.ts" "types/foo/index.d.ts"));
    reflexivity.
Defined.

Lemma parseLine_cuts_path_witness :
  parseLine
    (name_status_line "" (FileChange A "types/foo bar/index.d.ts"))
  = Returned (mkEntry "A" "types/foo" None).
Proof.
  apply (parseLine_cuts_path A "types/foo" "bar/index.d.ts");
    reflexivity.
Defined.

Lemma parseLine_single_field_witness :
  parseLine "" = Thrown TypeError /\ parseLine "R100" = Thrown TypeError.
Proof.
  split.
  - apply (parseLine_single_field ""). reflexivity.
  - apply (parseLine_single_field "R100"). reflexivity.
Defined.

Lemma gitDiff_empty_throws_witness :
  snd (gitDiff "master" "origin" ScenarioGit.no_changes "DefinitelyTyped")
  = Thrown TypeError.
Proof.
  apply (gitDiff_empty_throws "master" "origin" ScenarioGit.no_changes
           "DefinitelyTyped" nl nl);
    try reflexivity.
  left. exists "ok". reflexivity.
Defined.


(* ================================================================= *)
(** ** The search index generator *)

Import SearchIndex.

Section SortFacts.
Context {T : Type}.
Variable downloads : T -> Z.

Local Notation "'by_downloads'" := (fun a b : T => (downloads b - downloads a)%Z).
Local Notation "'no_fewer'" := (fun a b : T => (downloads b <= downloads a)%Z).

Lemma insert_sorted_perm (compare : T -> T -> Z) (x : T) (l : list T) :
  Permutation (x :: l) (insert_sorted compare x l).
Proof.
  induction l as [|y l IH]; simpl; [reflexivity|].
  destruct (Z.leb (compare x y) 0); [reflexivity|].
  rewrite perm_swap. now apply perm_skip.
Qed.

Lemma Array_sort_perm (compare : T -> T -> Z) (l : list T) :
  Permutation l (Array_sort compare l).
Proof.
  induction l as [|x l IH]; simpl; [constructor|].
  rewrite <- insert_sorted_perm. now apply perm_skip.
Qed.

Lemma insert_sorted_sorted (x : T) (l : list T) :
  StronglySorted no_fewer l ->
  StronglySorted no_fewer (insert_sorted by_downloads x l).
Proof.
  induction 1 as [|y l Hs IH Hy]; simpl.
  - constructor; constructor.
  - destruct (Z.leb_spec (downloads y - downloads x) 0) as [Hle|Hgt].
    + constructor; [now constructor|].
      constructor; [lia|].
      rewrite Forall_forall in *. intros z Hz. specialize (Hy z Hz). lia.
    + constructor; [exact IH|].
      rewrite Forall_forall in *. intros z Hz.
      apply (Permutation_in _ (Permutation_sym (insert_sorted_perm _ x l)))
        in Hz.
      destruct Hz as [<-|Hz]; [lia | now apply Hy].
Qed.

Lemma Array_sort_sorted (l : list T) :
  StronglySorted no_fewer (Array_sort by_downloads l).
Proof.
  induction l as [|x l IH]; simpl; [constructor|].
  now apply insert_sorted_sorted.
Qed.

Lemma sorted_app_order (l1 l2 : list T) :
  StronglySorted no_fewer (l1 ++ l2) ->
  forall a b : T, In a l1 -> In b l2 -> (downloads b <= downloads a)%Z.
Proof.
  induction l1 as [|x l1 IH]; simpl; intros H a b Ha Hb; [destruct Ha|].
  inversion H as [|? ? Hs Hx]; subst.
  destruct Ha as [<-|Ha].
  - rewrite Forall_forall in Hx. apply Hx, in_or_app. now right.
  - now apply (IH Hs a b).
Qed.

End SortFacts.

Section IndexFacts.
Variables Pkg SearchRecord MinifiedSearchRecord : Type.
Variable downloads : SearchRecord -> Z.
Variable readAllPackages : outcome (list Pkg).
Variable createSearchRecord : Pkg -> bool -> outcome SearchRecord.
Variable minifySearchRecord : SearchRecord -> MinifiedSearchRecord.
Variable nAtATime :
  nat -> list Pkg -> (Pkg -> outcome SearchRecord) ->
  outcome (list SearchRecord).
Variable writeDataFile :
  string -> Data SearchRecord MinifiedSearchRecord -> option bool ->
  outcome unit.
Variable settles_first : list JsError -> JsError.

Local Notation "'generate'" :=
  (main Pkg SearchRecord MinifiedSearchRecord downloads readAllPackages
     createSearchRecord minifySearchRecord nAtATime writeDataFile
     settles_first).
Local Notation "'full'" := (Records SearchRecord MinifiedSearchRecord).
Local Notation "'minified'" := (MinRecords SearchRecord MinifiedSearchRecord).
Local Notation "'no_fewer'" :=
  (fun a b : SearchRecord => (downloads b <= downloads a)%Z).
Local Notation "'sort'" :=
  (Array_sort (fun a b : SearchRecord => (downloads b - downloads a)%Z)).

(** The events of a run whose records were created. *)
Lemma main_written (skipDownloads : bool) (packages : list Pkg)
  (records : list SearchRecord) :
  readAllPackages = Returned packages ->
  nAtATime 100 packages (fun pkg => createSearchRecord pkg skipDownloads)
  = Returned records ->
  written (fst (generate skipDownloads))
  = [("search-index-full.json", full (sort records), None);
     ("search-index-min.json",
      minified (map minifySearchRecord (sort records)), Some false);
     ("search-index-head.json",
      minified (firstn 100 (map minifySearchRecord (sort records))),
      Some false)].
Proof. intros Hr Hn. unfold main. rewrite Hr, Hn. reflexivity. Qed.

(** X21: the three files of a run.  The full index holds the created
    records, each once, ordered by downloads, most downloaded first; the
    minified index holds their minified forms in the same order; the head
    index holds the first hundred of the minified index. *)
Theorem main_writes_sorted (skipDownloads : bool) (packages : list Pkg)
  (records : list SearchRecord) :
  readAllPackages = Returned packages ->
  nAtATime 100 packages (fun pkg => createSearchRecord pkg skipDownloads)
  = Returned records ->
  exists sorted : list SearchRecord,
    Permutation records sorted
    /\ StronglySorted no_fewer sorted
    /\ written (fst (generate skipDownloads))
       = [("search-index-full.json", full sorted, None);
          ("search-index-min.json",
           minified (map minifySearchRecord sorted), Some false);
          ("search-index-head.json",
           minified (firstn 100 (map minifySearchRecord sorted)),
           Some false)].
Proof.
  intros Hr Hn. exists (sort records).
  split; [apply Array_sort_perm|].
  split; [apply Array_sort_sorted|].
  exact (main_written skipDownloads packages records Hr Hn).
Qed.

(** X22: the head index holds the most downloaded packages: it is made of
    the minified forms of a hundred records, or of all of them when there
    are fewer, and no record left out has more downloads than one of
    these. *)
Theorem main_head_most_downloaded (skipDownloads : bool)
  (packages : list Pkg) (records : list SearchRecord) :
  readAllPackages = Returned packages ->
  nAtATime 100 packages (fun pkg => createSearchRecord pkg skipDownloads)
  = Returned records ->
  exists top rest : list SearchRecord,
    Permutation records (top ++ rest)
    /\ length top = Nat.min 100 (length records)
    /\ (forall a b : SearchRecord,
          In a top -> In b rest -> (downloads b <= downloads a)%Z)
    /\ In ("search-index-head.json",
           minified (map minifySearchRecord top), Some false)
         (written (fst (generate skipDownloads))).
Proof.
  intros Hr Hn.
  exists (firstn 100 (sort records)), (skipn 100 (sort records)).
  rewrite firstn_skipn.
  split; [apply Array_sort_perm|].
  split.
  - rewrite length_firstn.
    now rewrite <- (Permutation_length (Array_sort_perm _ records)).
  - split.
    + apply (sorted_app_order downloads). rewrite firstn_skipn.
      apply Array_sort_sorted.
    + rewrite (main_written skipDownloads packages records Hr Hn).
      rewrite <- firstn_map. right. right. left. reflexivity.
Qed.

(** X23: a run that cannot read the packages or create the records writes
    no file and throws the error it met. *)
Theorem main_failure_writes_nothing (skipDownloads : bool) :
  (forall e : JsError,
     readAllPackages = Thrown e ->
     generate skipDownloads = ([], Thrown e))
  /\ (forall (packages : list Pkg) (e : JsError),
        readAllPackages = Returned packages ->
        nAtATime 100 packages (fun pkg => createSearchRecord pkg skipDownloads)
        = Thrown e ->
        written (fst (generate skipDownloads)) = []
        /\ snd (generate skipDownloads) = Thrown e).
Proof.
  split.
  - intros e Hr. unfold main. now rewrite Hr.
  - intros packages e Hr Hn. unfold main. rewrite Hr, Hn. now split.
Qed.

(** X24: a run that created its records starts all three writes, and it
    returns exactly when every one of them succeeds. *)
Theorem main_returns_iff_written (skipDownloads : bool)
  (packages : list Pkg) (records : list SearchRecord) :
  readAllPackages = Returned packages ->
  nAtATime 100 packages (fun pkg => createSearchRecord pkg skipDownloads)
  = Returned records ->
  length (written (fst (generate skipDownloads))) = 3
  /\ (snd (generate skipDownloads) = Returned tt
      <-> forall (f : string) (c : Data SearchRecord MinifiedSearchRecord)
            (o : option bool),
            In (f, c, o) (written (fst (generate skipDownloads))) ->
            writeDataFile f c o = Returned tt).
Proof.
  intros Hr Hn.
  rewrite (main_written skipDownloads packages records Hr Hn).
  split; [reflexivity|].
  unfold main. rewrite Hr, Hn. simpl. unfold await_all. simpl.
  split.
  - intros H f c o Hin.
    destruct (writeDataFile "search-index-full.json" _ None)
      as [[]|e1] eqn:W1; simpl in H; [|discriminate].
    destruct (writeDataFile "search-index-min.json" _ (Some false))
      as [[]|e2] eqn:W2; simpl in H; [|discriminate].
    destruct (writeDataFile "search-index-head.json" _ (Some false))
      as [[]|e3] eqn:W3; simpl in H; [|discriminate].
    destruct Hin as [E|[E|[E|[]]]]; inversion E; subst; assumption.
  - intros H.
    rewrite (H _ _ _ (or_introl eq_refl)).
    rewrite (H _ _ _ (or_intror (or_introl eq_refl))).
    rewrite (H _ _ _ (or_intror (or_intror (or_introl eq_refl)))).
    reflexivity.
Qed.

End IndexFacts.

Example main_runs :
  written
    (fst (main string (string * Z) string ScenarioIndex.downloads
            (Returned ScenarioIndex.packages)
            ScenarioIndex.createSearchRecord ScenarioIndex.minifySearchRecord
            ScenarioIndex.nAtATime ScenarioIndex.writeDataFile
            ScenarioIndex.settles_first false))
  = [("search-index-full.json",
      Records (string * Z) string
        [("jquery", 6%Z); ("lodash", 6%Z); ("react", 5%Z); ("node", 4%Z)],
      None);
     ("search-index-min.json",
      MinRecords (string * Z) string ["jquery"; "lodash"; "react"; "node"],
      Some false);
     ("search-index-head.json",
      MinRecords (string * Z) string ["jquery"; "lodash"; "react"; "node"],
      Some false)].
Proof. reflexivity. Qed.

Lemma main_writes_sorted_witness :
  exists sorted : list (string * Z),
    Permutation
      [("node", 4%Z); ("react", 5%Z); ("jquery", 6%Z); ("lodash", 6%Z)]
      sorted
    /\ StronglySorted
         (fun a b => (ScenarioIndex.downloads b <= ScenarioIndex.downloads a)%Z)
         sorted
    /\ written
         (fst (main string (string * Z) string ScenarioIndex.downloads
                 (Returned ScenarioIndex.packages)
                 ScenarioIndex.createSearchRecord
                 ScenarioIndex.minifySearchRecord
                 ScenarioIndex.nAtATime ScenarioIndex.writeDataFile
                 ScenarioIndex.settles_first false))
       = [("search-index-full.json", Records (string * Z) string sorted, None);
          ("search-index-min.json",
           MinRecords (string * Z) string
             (map ScenarioIndex.minifySearchRecord sorted),
           Some false);
          ("search-index-head.json",
           MinRecords (string * Z) string
             (firstn 100 (map ScenarioIndex.minifySearchRecord sorted)),
           Some false)].
Proof.
  apply (main_writes_sorted string (string * Z) string
           ScenarioIndex.downloads (Returned ScenarioIndex.packages)
           ScenarioIndex.createSearchRecord ScenarioIndex.minifySearchRecord
           ScenarioIndex.nAtATime ScenarioIndex.writeDataFile
           ScenarioIndex.settles_first false ScenarioIndex.packages);
    reflexivity.
Defined.

Lemma main_head_most_downloaded_witness :
  exists top rest : list (string * Z),
    Permutation
      [("node", 4%Z); ("react", 5%Z); ("jquery", 6%Z); ("lodash", 6%Z)]
      (top ++ rest)
    /\ length top = Nat.min 100 4
    /\ (forall a b : string * Z,
          In a top -> In b rest ->
          (ScenarioIndex.downloads b <= ScenarioIndex.downloads a)%Z)
    /\ In ("search-index-head.json",
           MinRecords (string * Z) string
             (map ScenarioIndex.minifySearchRecord top),
           Some false)
         (written
            (fst (main string (string * Z) string ScenarioIndex.downloads
                    (Returned ScenarioIndex.packages)
                    ScenarioIndex.createSearchRecord
                    ScenarioIndex.minifySearchRecord
                    ScenarioIndex.nAtATime ScenarioIndex.writeDataFile
                    ScenarioIndex.settles_first false))).
Proof.
  apply (main_head_most_downloaded string (string * Z) string
           ScenarioIndex.downloads (Returned ScenarioIndex.packages)
           ScenarioIndex.createSearchRecord ScenarioIndex.minifySearchRecord
           ScenarioIndex.nAtATime ScenarioIndex.writeDataFile
           ScenarioIndex.settles_first false ScenarioIndex.packages);
    reflexivity.
Defined.

Lemma main_failure_writes_nothing_witness :
  main string (string * Z) string ScenarioIndex.downloads
    (Thrown (Error "no data")) ScenarioIndex.createSearchRecord
    ScenarioIndex.minifySearchRecord ScenarioIndex.nAtATime
    ScenarioIndex.writeDataFile ScenarioIndex.settles_first false
  = ([], Thrown (Error "no data")).
Proof.
  apply (proj1 (main_failure_writes_nothing string (string * Z) string
                  ScenarioIndex.downloads (Thrown (Error "no data"))
                  ScenarioIndex.createSearchRecord
                  ScenarioIndex.minifySearchRecord ScenarioIndex.nAtATime
                  ScenarioIndex.writeDataFile ScenarioIndex.settles_first
                  false)).
  reflexivity.
Defined.

Lemma main_returns_iff_written_witness :
  length
    (written
       (fst (main string (string * Z) string ScenarioIndex.downloads
               (Returned ScenarioIndex.packages)
               ScenarioIndex.createSearchRecord
               ScenarioIndex.minifySearchRecord
               ScenarioIndex.nAtATime ScenarioIndex.writeDataFile
               ScenarioIndex.settles_first false))) = 3.
Proof.
  apply (proj1 (main_returns_iff_written string (string * Z) string
                  ScenarioIndex.downloads (Returned ScenarioIndex.packages)
                  ScenarioIndex.createSearchRecord
                  ScenarioIndex.minifySearchRecord ScenarioIndex.nAtATime
                  ScenarioIndex.writeDataFile ScenarioIndex.settles_first
                  false ScenarioIndex.packages
                  [("node", 4%Z); ("react", 5%Z); ("jquery", 6%Z);
                   ("lodash", 6%Z)]
                  eq_refl eq_refl)).
Defined.
